(** * go-metrics-influxdb: the InfluxDB reporter of a go-metrics registry

    A shallow embedding of [influxdb.go]: the start-up call [InfluxDB], the
    client constructor [makeClient], the two-ticker loop [run] and the
    snapshot translator [send], followed by the properties of the
    specification that were checked against them.

    The collaborators the file imports (net/url, os, time, log, the InfluxDB
    client and the go-metrics registry) are not part of the repository.  They
    are modelled by their observable results: an environment [Env] gives the
    result of every external call as a function of how many calls of that
    kind were made before, and a [World] counts the calls and records what
    the reporter handed to the outside (log lines, client constructions,
    pings, written batches).  A method of the client called on a nil handle
    does not return but panics: [fate] follows the loop up to such a call. *)

From Stdlib Require Import ZArith Floats Lia Sorted.
From stdpp Require Import gmap strings list fin_maps.

Set Warnings "-inexact-float".
Open Scope Z_scope.

(** ** Go's numeric types *)

Module Go.

(** int64 as [Z], with the two's complement wrap-around written out. *)
Definition min_int64 : Z := - 2 ^ 63.
Definition max_int64 : Z := 2 ^ 63 - 1.

Definition in_int64 (z : Z) : Prop := min_int64 <= z <= max_int64.

Definition wrap64 (z : Z) : Z := (z + 2 ^ 63) mod 2 ^ 64 - 2 ^ 63.

(** [a / b] on int64, for [b <> 0]: the quotient truncated toward zero. *)
Definition int64_div (a b : Z) : Z := wrap64 (Z.quot a b).

(** float64 is IEEE 754 binary64, which is what Rocq's primitive floats are. *)
Definition float64 : Set := float.

(** The conversion [float64(z)] of an int64: the nearest binary64 value. *)
Definition float64_of_int64 (z : Z) : float64 :=
  SF2Prim (binary_normalize prec emax z 0 false).

Definition float64_div (a b : float64) : float64 := PrimFloat.div a b.

(** A Go [error] value, by its message; a nil error is [None : option error]. *)
Definition error : Set := string.

End Go.

Export Go.

(** ** package time *)

Module time.

(** [time.Time], as nanoseconds since the epoch. *)
Definition Time : Set := Z.

(** [time.Duration] is an int64 count of nanoseconds. *)
Definition Duration : Set := Z.

Definition Nanosecond : Duration := 1.
Definition Microsecond : Duration := 1000 * Nanosecond.
Definition Millisecond : Duration := 1000 * Microsecond.
Definition Second : Duration := 1000 * Millisecond.

(** [d.Nanoseconds()] is [int64(d)]. *)
Definition Nanoseconds (d : Duration) : Z := d.

End time.

(** ** package metrics: the instruments, as the readings their methods return *)

Module metrics.

Module Counter.
Record t : Type := { Count : Z }.
End Counter.

Module Gauge.
Record t : Type := { Value : Z }.
End Gauge.

Module GaugeFloat64.
Record t : Type := { Value : float64 }.
End GaugeFloat64.

Module Histogram.
Record t : Type :=
  { Count : Z;
    Max : Z;
    Mean : float64;
    Min : Z;
    StdDev : float64;
    Variance : float64;
    Percentile : float64 -> float64 }.

(** [Percentiles] answers with one score per requested fraction. *)
Definition Percentiles (m : t) (ps : list float64) : list float64 :=
  map (Percentile m) ps.
End Histogram.

Module Meter.
Record t : Type :=
  { Count : Z;
    Rate1 : float64;
    Rate5 : float64;
    Rate15 : float64;
    RateMean : float64 }.
End Meter.

Module Timer.
Record t : Type :=
  { Count : Z;
    Max : Z;
    Mean : float64;
    Min : Z;
    StdDev : float64;
    Variance : float64;
    Percentile : float64 -> float64;
    Rate1 : float64;
    Rate5 : float64;
    Rate15 : float64;
    RateMean : float64 }.

Definition Percentiles (m : t) (ps : list float64) : list float64 :=
  map (Percentile m) ps.
End Timer.

(** The dynamic type of a registry entry, as the type switch of [send]
    tells them apart.  [Unrecognized] is any value that implements none of
    the six interfaces (a [metrics.Healthcheck], for instance). *)
Inductive Instrument : Type :=
| ICounter (m : Counter.t)
| IGauge (m : Gauge.t)
| IGaugeFloat64 (m : GaugeFloat64.t)
| IHistogram (m : Histogram.t)
| IMeter (m : Meter.t)
| ITimer (m : Timer.t)
| Unrecognized.

(** A [metrics.Registry] is a reference to a map owned by the host process.
    The reporter only calls [Each] on it: [entries k] are the entries that
    the [k]-th call of [Each] visits, in visiting order. *)
Record Registry : Type := { entries : nat -> list (string * Instrument) }.

End metrics.

Import metrics.

(** ** package client *)

Module client.

Record URL : Type := { raw : string }.

Record Config : Type :=
  { URL_ : URL;
    Username : string;
    Password : string }.

(** A [*client.Client] that is not nil, by the identity the library gave it. *)
Definition Client : Set := nat.

(** A field value is an [interface{}] holding an int64 or a float64. *)
Inductive Value : Type :=
| VInt64 (z : Z)
| VFloat64 (f : float64).

(** The fields of [client.Point] that [send] sets; the others keep their
    zero values. *)
Record Point : Type :=
  { Measurement : string;
    Fields : gmap string Value;
    Time : time.Time }.

Record BatchPoints : Type :=
  { Points : list Point;
    Database : string }.

End client.

Import client.

(** ** The outside world *)

(** The results of the external calls.  Calls whose result may change from
    one call to the next take the number of earlier calls of the same kind.
    The answers of [client_Ping] and [client_Write] are those of calls on a
    handle that is not nil; a call on a nil handle panics ([tick_panics]) and
    its entry here is never asked for by [fate]. *)
Record Env : Type :=
  { url_Parse : string -> URL + error;
    os_Hostname : nat -> string + error;
    time_Now : nat -> time.Time;
    client_NewClient : nat -> Config -> option Client * option error;
    client_Ping : nat -> option Client -> option error;
    client_Write : nat -> option Client -> BatchPoints -> option error }.

(** What has happened so far, oldest first. *)
Record World : Type :=
  { hostname_calls : nat;
    now_calls : nat;
    each_calls : nat;
    newclient_calls : list Config;
    ping_calls : list (option Client);
    write_calls : list (option Client * BatchPoints);
    log_output : list string }.

Definition initial_world : World :=
  {| hostname_calls := 0; now_calls := 0; each_calls := 0;
     newclient_calls := []; ping_calls := []; write_calls := [];
     log_output := [] |}.

(** The steps of the world, one per external call. *)

Definition count_hostname (w : World) : World :=
  {| hostname_calls := S (hostname_calls w); now_calls := now_calls w;
     each_calls := each_calls w; newclient_calls := newclient_calls w;
     ping_calls := ping_calls w; write_calls := write_calls w;
     log_output := log_output w |}.

(** [k] more readings of the clock. *)
Definition count_now (k : nat) (w : World) : World :=
  {| hostname_calls := hostname_calls w; now_calls := (k + now_calls w)%nat;
     each_calls := each_calls w; newclient_calls := newclient_calls w;
     ping_calls := ping_calls w; write_calls := write_calls w;
     log_output := log_output w |}.

Definition count_each (w : World) : World :=
  {| hostname_calls := hostname_calls w; now_calls := now_calls w;
     each_calls := S (each_calls w); newclient_calls := newclient_calls w;
     ping_calls := ping_calls w; write_calls := write_calls w;
     log_output := log_output w |}.

Definition record_newclient (c : Config) (w : World) : World :=
  {| hostname_calls := hostname_calls w; now_calls := now_calls w;
     each_calls := each_calls w; newclient_calls := newclient_calls w ++ [c];
     ping_calls := ping_calls w; write_calls := write_calls w;
     log_output := log_output w |}.

Definition record_ping (c : option Client) (w : World) : World :=
  {| hostname_calls := hostname_calls w; now_calls := now_calls w;
     each_calls := each_calls w; newclient_calls := newclient_calls w;
     ping_calls := ping_calls w ++ [c]; write_calls := write_calls w;
     log_output := log_output w |}.

Definition record_write (c : option Client) (bps : BatchPoints) (w : World) : World :=
  {| hostname_calls := hostname_calls w; now_calls := now_calls w;
     each_calls := each_calls w; newclient_calls := newclient_calls w;
     ping_calls := ping_calls w; write_calls := write_calls w ++ [(c, bps)];
     log_output := log_output w |}.

Definition record_log (line : string) (w : World) : World :=
  {| hostname_calls := hostname_calls w; now_calls := now_calls w;
     each_calls := each_calls w; newclient_calls := newclient_calls w;
     ping_calls := ping_calls w; write_calls := write_calls w;
     log_output := log_output w ++ [line] |}.

(** ** A state monad over the world *)

Definition M (A : Type) : Type := World -> A * World.

Definition ret {A : Type} (a : A) : M A := fun w => (a, w).

Definition bind {A B : Type} (c : M A) (k : A -> M B) : M B :=
  fun w => let (a, w') := c w in k a w'.

Declare Scope io_scope.
Delimit Scope io_scope with io.
Notation "x <- c ;; k" := (bind c (fun x => k))
  (at level 100, c at next level, right associativity) : io_scope.
Notation "c ;;; k" := (bind c (fun _ => k))
  (at level 100, right associativity) : io_scope.
Open Scope io_scope.

Section Reporter.

Variable E : Env.

(** *** The external calls *)

Definition Hostname : M (string + error) := fun w =>
  (os_Hostname E (hostname_calls w), count_hostname w).

Definition Now : M time.Time := fun w =>
  (time_Now E (now_calls w), count_now 1 w).

Definition NewClient (c : Config) : M (option Client * option error) := fun w =>
  (client_NewClient E (length (newclient_calls w)) c, record_newclient c w).

(** [c.Ping()] and [c.Write(bps)], as they return on a handle that is not
    nil.  On a nil handle the method panics when it reads its receiver:
    [tick_panics] tells the ticks in which that happens and [fate] ends the
    loop there. *)
Definition Ping (c : option Client) : M (option error) := fun w =>
  (client_Ping E (length (ping_calls w)) c, record_ping c w).

Definition Write (c : option Client) (bps : BatchPoints) : M (option error) := fun w =>
  (client_Write E (length (write_calls w)) c bps, record_write c bps w).

(** [log.Printf], with the formatted line as its argument. *)
Definition Printf (line : string) : M unit := fun w => (tt, record_log line w).

(** [reg.Each(f)], for a callback that updates the captured slice [pts]. *)
Fixpoint each_entry {A : Type} (f : A -> string -> Instrument -> M A)
    (es : list (string * Instrument)) (acc : A) : M A :=
  match es with
  | [] => ret acc
  | (name, i) :: es' => acc' <- f acc name i ;; each_entry f es' acc'
  end.

Definition Each {A : Type} (reg : Registry)
    (f : A -> string -> Instrument -> M A) (acc : A) : M A := fun w =>
  each_entry f (entries reg (each_calls w)) acc (count_each w).

(** *** The reporter *)

Record reporter : Type :=
  { reg : Registry;
    interval : time.Duration;
    tagHost : bool;
    url : URL;
    database : string;
    username : string;
    password : string;
    client : option Client }.

Definition set_client (r : reporter) (c : option Client) : reporter :=
  {| reg := reg r; interval := interval r; tagHost := tagHost r;
     url := url r; database := database r; username := username r;
     password := password r; client := c |}.

(** [makeClient] stores whatever handle [NewClient] returns, also with an
    error, and returns the error. *)
Definition makeClient (r : reporter) : M (reporter * option error) :=
  res <- NewClient {| URL_ := url r; Username := username r;
                      Password := password r |} ;;
  let (c, err) := res in
  ret (set_client r c, err).

(** The fractions both [Percentiles] calls of [send] ask for. *)
Definition fractions : list float64 :=
  [0.5; 0.75; 0.95; 0.99; 0.999; 0.9999]%float.

(** [ps[k]]; the index is in range for every slice [send] indexes (lemma
    [index_Percentiles]), so the default is never returned. *)
Definition index (ps : list float64) (k : nat) : float64 := nth k ps 0%float.

(** [time.Millisecond.Nanoseconds()] and its float64 conversion. *)
Definition ms_int64 : Z := time.Nanoseconds time.Millisecond.
Definition ms_float64 : float64 := float64_of_int64 ms_int64.

(** The callback that [send] passes to [Each]; [pts] is the captured slice. *)
Definition send_callback (host : string) (pts : list Point)
    (name : string) (i : Instrument) : M (list Point) :=
  now <- Now ;;
  let name := host +:+ name in
  match i with
  | ICounter m =>
      ret (pts ++ [ {| Measurement := name +:+ ".count";
                       Fields := list_to_map [ ("value", VInt64 (Counter.Count m)) ];
                       Time := now |} ])
  | IGauge m =>
      ret (pts ++ [ {| Measurement := name +:+ ".gauge";
                       Fields := list_to_map [ ("value", VInt64 (Gauge.Value m)) ];
                       Time := now |} ])
  | IGaugeFloat64 m =>
      ret (pts ++ [ {| Measurement := name +:+ ".gauge";
                       Fields := list_to_map [ ("value", VFloat64 (GaugeFloat64.Value m)) ];
                       Time := now |} ])
  | IHistogram m =>
      let ps := Histogram.Percentiles m fractions in
      ret (pts ++ [ {| Measurement := name +:+ ".histogram";
                       Fields := list_to_map
                         [ ("count", VInt64 (Histogram.Count m));
                           ("max", VInt64 (Histogram.Max m));
                           ("mean", VFloat64 (Histogram.Mean m));
                           ("min", VInt64 (Histogram.Min m));
                           ("stddev", VFloat64 (Histogram.StdDev m));
                           ("variance", VFloat64 (Histogram.Variance m));
                           ("p50", VFloat64 (index ps 0));
                           ("p75", VFloat64 (index ps 1));
                           ("p95", VFloat64 (index ps 2));
                           ("p99", VFloat64 (index ps 3));
                           ("p999", VFloat64 (index ps 4));
                           ("p9999", VFloat64 (index ps 5)) ];
                       Time := now |} ])
  | IMeter m =>
      ret (pts ++ [ {| Measurement := name +:+ ".meter";
                       Fields := list_to_map
                         [ ("count", VInt64 (Meter.Count m));
                           ("m1", VFloat64 (Meter.Rate1 m));
                           ("m5", VFloat64 (Meter.Rate5 m));
                           ("m15", VFloat64 (Meter.Rate15 m));
                           ("mean", VFloat64 (Meter.RateMean m)) ];
                       Time := now |} ])
  | ITimer m =>
      let ps := Timer.Percentiles m fractions in
      ret (pts ++ [ {| Measurement := name +:+ ".timer";
                       Fields := list_to_map
                         [ ("count", VInt64 (Timer.Count m));
                           ("max", VInt64 (int64_div (Timer.Max m) ms_int64));
                           ("mean", VFloat64 (float64_div (Timer.Mean m) ms_float64));
                           ("min", VInt64 (int64_div (Timer.Min m) ms_int64));
                           ("stddev", VFloat64 (float64_div (Timer.StdDev m) ms_float64));
                           ("variance", VFloat64 (float64_div (Timer.Variance m) ms_float64));
                           ("p50", VFloat64 (float64_div (index ps 0) ms_float64));
                           ("p75", VFloat64 (float64_div (index ps 1) ms_float64));
                           ("p95", VFloat64 (float64_div (index ps 2) ms_float64));
                           ("p99", VFloat64 (float64_div (index ps 3) ms_float64));
                           ("p999", VFloat64 (float64_div (index ps 4) ms_float64));
                           ("p9999", VFloat64 (float64_div (index ps 5) ms_float64));
                           ("m1", VFloat64 (Timer.Rate1 m));
                           ("m5", VFloat64 (Timer.Rate5 m));
                           ("m15", VFloat64 (Timer.Rate15 m));
                           ("meanrate", VFloat64 (Timer.RateMean m)) ];
                       Time := now |} ])
  | Unrecognized => ret pts
  end.

(** The first part of [send]: the host prefix, or the error that ends it. *)
Definition host_prefix (r : reporter) : M (string + error) :=
  let host := "" in
  if tagHost r then
    h <- Hostname ;;
    match h with
    | inr err => ret (inr err)
    | inl hostName => ret (inl (hostName +:+ "."))
    end
  else ret (inl host).

Definition send (r : reporter) : M (option error) :=
  h <- host_prefix r ;;
  match h with
  | inr err => ret (Some err)
  | inl host =>
      pts <- Each (reg r) (send_callback host) [] ;;
      let bps := {| Points := pts; Database := database r |} in
      Write (client r) bps
  end.

(** *** The loop *)

(** What the [select] of [run] receives: a tick of the ticker of period
    [r.interval], or a tick of the five-second ticker.  The order in which
    the two tickers deliver is an input of the model. *)
Inductive Tick : Set := intervalTicker | pingTicker.

(** One iteration of the [for] loop: the case of the ticker that fired. *)
Definition run_case (r : reporter) (t : Tick) : M reporter :=
  match t with
  | intervalTicker =>
      err <- send r ;;
      match err with
      | Some e =>
          Printf ("unable to send metrics to InfluxDB. err=" +:+ e) ;;;
          ret r
      | None => ret r
      end
  | pingTicker =>
      err <- Ping (client r) ;;
      match err with
      | Some e =>
          Printf ("got error while sending a ping to InfluxDB, trying to recreate client. err=" +:+ e) ;;;
          res <- makeClient r ;;
          let (r', err') := res in
          match err' with
          | Some e' =>
              Printf ("unable to make InfluxDB client. err=" +:+ e') ;;;
              ret r'
          | None => ret r'
          end
      | None => ret r
      end
  end.

(** [run] has no exit: after any finite sequence of ticks it is back at the
    [select], with the reporter it then holds, unless a tick panicked on a
    nil handle ([fate]). *)
Fixpoint run (r : reporter) (ticks : list Tick) : M reporter :=
  match ticks with
  | [] => ret r
  | t :: ticks' => r' <- run_case r t ;; run r' ticks'
  end.

(** How a call of [InfluxDB] stands after the given ticks: it has returned
    to its caller, or it is in the loop of [run]. *)
Inductive Outcome : Type :=
| Returned
| Looping (r : reporter).

Definition InfluxDB (r : Registry) (d : time.Duration)
    (url database username password : string) (tagHost : bool)
    (ticks : list Tick) : M Outcome :=
  match url_Parse E url with
  | inr err =>
      Printf ("unable to parse InfluxDB url " +:+ url +:+ ". err=" +:+ err) ;;;
      ret Returned
  | inl u =>
      let rep := {| reg := r; interval := d; tagHost := tagHost; url := u;
                    database := database; username := username;
                    password := password; client := None |} in
      res <- makeClient rep ;;
      let (rep, err) := res in
      match err with
      | Some e =>
          Printf ("unable to make InfluxDB client. err=" +:+ e) ;;;
          ret Returned
      | None =>
          rep' <- run rep ticks ;;
          ret (Looping rep')
      end
  end.

End Reporter.

(** ** What one emission computes, as functions of the clock readings *)

(** An environment whose clock always reads [now]; its other calls are never
    made by [send_callback]. *)
Definition frozen_clock (now : time.Time) : Env :=
  {| url_Parse := fun _ => inr "";
     os_Hostname := fun _ => inr "";
     time_Now := fun _ => now;
     client_NewClient := fun _ _ => (None, None);
     client_Ping := fun _ _ => None;
     client_Write := fun _ _ _ => None |}.

(** The points that the callback of [send] appends for one entry visited when
    the clock reads [now]: one point, or none. *)
Definition entry_points (host : string) (now : time.Time)
    (name : string) (i : Instrument) : list Point :=
  (send_callback (frozen_clock now) host [] name i initial_world).1.

(** The points of a whole walk over [es] that starts after [n] readings of the
    clock of [E]. *)
Fixpoint walk_points (E : Env) (host : string) (n : nat)
    (es : list (string * Instrument)) : list Point :=
  match es with
  | [] => []
  | (name, i) :: es' =>
      entry_points host (time_Now E n) name i ++ walk_points E host (S n) es'
  end.

(** The batches that one call of [send] hands to [Write]. *)
Definition emitted (E : Env) (r : reporter) (w : World) : list BatchPoints :=
  (drop (length (write_calls w)) (write_calls (send E r w).2)).*2.

(** The configuration that [makeClient] passes to [NewClient]. *)
Definition stored_config (r : reporter) : Config :=
  {| URL_ := url r; Username := username r; Password := password r |}.

Definition set_tagHost (r : reporter) (b : bool) : reporter :=
  {| reg := reg r; interval := interval r; tagHost := b;
     url := url r; database := database r; username := username r;
     password := password r; client := client r |}.

(** ** The dispatch table of the specification

    The kinds, suffixes and field keys as section 4.2 of the specification
    lists them, to be compared with what [send_callback] builds. *)

Inductive Kind : Set :=
| Counter_ | Gauge_ | FloatGauge_ | Histogram_ | Meter_ | Timer_.

Definition table_suffix (k : Kind) : string :=
  match k with
  | Counter_ => ".count"
  | Gauge_ => ".gauge"
  | FloatGauge_ => ".gauge"
  | Histogram_ => ".histogram"
  | Meter_ => ".meter"
  | Timer_ => ".timer"
  end.

Definition statistical_keys : list string :=
  ["count"; "max"; "mean"; "min"; "stddev"; "variance";
   "p50"; "p75"; "p95"; "p99"; "p999"; "p9999"].

Definition table_fields (k : Kind) : gset string :=
  match k with
  | Counter_ => list_to_set ["value"]
  | Gauge_ => list_to_set ["value"]
  | FloatGauge_ => list_to_set ["value"]
  | Histogram_ => list_to_set statistical_keys
  | Meter_ => list_to_set ["count"; "m1"; "m5"; "m15"; "mean"]
  | Timer_ => list_to_set (statistical_keys ++ ["m1"; "m5"; "m15"; "meanrate"])
  end.

(** The kind of an instrument; none for one that [send] does not recognize. *)
Definition kind_of (i : Instrument) : option Kind :=
  match i with
  | ICounter _ => Some Counter_
  | IGauge _ => Some Gauge_
  | IGaugeFloat64 _ => Some FloatGauge_
  | IHistogram _ => Some Histogram_
  | IMeter _ => Some Meter_
  | ITimer _ => Some Timer_
  | Unrecognized => None
  end.

(** The measurement name the table gives an entry, if its kind is in it. *)
Definition table_measurement (host : string) (e : string * Instrument) : option string :=
  (fun k => (host +:+ e.1) +:+ table_suffix k) <$> kind_of e.2.

(** All points of a batch carry one timestamp. *)
Definition time_aligned (b : BatchPoints) : Prop :=
  forall p q, p ∈ Points b -> q ∈ Points b -> Time p = Time q.

(** ** What a walk over a registry leaves in the batch *)

(** The clock readings that end up in points: the [k]-th entry of a walk that
    starts after [n] readings is visited at reading [n + k], and its reading is
    kept when the entry is of a recognized kind. *)
Fixpoint walk_stamps (E : Env) (n : nat) (es : list (string * Instrument)) : list time.Time :=
  match es with
  | [] => []
  | e :: es' =>
      match kind_of e.2 with
      | Some _ => [time_Now E n]
      | None => []
      end ++ walk_stamps E (S n) es'
  end.

(** The kinds of the recognized entries of a snapshot, in visiting order. *)
Definition recognized_kinds (es : list (string * Instrument)) : list Kind :=
  omap (fun e => kind_of e.2) es.

Definition with_prefix (host : string) (p : Point) : Point :=
  {| Measurement := host +:+ Measurement p; Fields := Fields p; Time := Time p |}.

(** [q] is [x] divided by 1,000,000 and truncated toward zero. *)
Definition truncated_ms (x q : Z) : Prop :=
  1000000 * Z.abs q <= Z.abs x < 1000000 * Z.abs q + 1000000 /\ 0 <= q * x.

(** ** Scenarios: concrete environments, registries and reporters *)

Module Scenario.

(** Everything succeeds; the host is "box"; the clock advances by one with
    every reading, from 1000. *)
Definition fair : Env :=
  {| url_Parse := fun s => inl {| raw := s |};
     os_Hostname := fun _ => inl "box";
     time_Now := fun k => 1000 + Z.of_nat k;
     client_NewClient := fun k _ => (Some k, None);
     client_Ping := fun _ _ => None;
     client_Write := fun _ _ _ => None |}.

(** As [fair], but the host name cannot be resolved. *)
Definition nameless : Env :=
  {| url_Parse := url_Parse fair;
     os_Hostname := fun _ => inr "hostname: lookup failed";
     time_Now := time_Now fair;
     client_NewClient := client_NewClient fair;
     client_Ping := client_Ping fair;
     client_Write := client_Write fair |}.

(** As [fair], but no endpoint parses. *)
Definition unparsable : Env :=
  {| url_Parse := fun _ => inr "missing protocol scheme";
     os_Hostname := os_Hostname fair;
     time_Now := time_Now fair;
     client_NewClient := client_NewClient fair;
     client_Ping := client_Ping fair;
     client_Write := client_Write fair |}.

(** As [fair], but no client can be constructed. *)
Definition clientless : Env :=
  {| url_Parse := url_Parse fair;
     os_Hostname := os_Hostname fair;
     time_Now := time_Now fair;
     client_NewClient := fun _ _ => (None, Some "no transport");
     client_Ping := client_Ping fair;
     client_Write := client_Write fair |}.


Definition snapshot (es : list (string * Instrument)) : Registry :=
  {| entries := fun _ => es |}.

(** A reporter on a fixed snapshot, already holding the client 0. *)
Definition reporting (es : list (string * Instrument)) (tag : bool) : reporter :=
  {| reg := snapshot es; interval := 10 * time.Second; tagHost := tag;
     url := {| raw := "http://localhost:8086" |}; database := "metrics";
     username := "admin"; password := "secret"; client := Some 0%nat |}.

Definition requests : Counter.t := {| Counter.Count := 42 |}.

Definition depth : Gauge.t := {| Gauge.Value := -3 |}.

Definition sizes : Histogram.t :=
  {| Histogram.Count := 4; Histogram.Max := 9; Histogram.Mean := 5%float;
     Histogram.Min := 1; Histogram.StdDev := 2%float;
     Histogram.Variance := 4%float; Histogram.Percentile := fun _ => 5%float |}.

Definition hits : Meter.t :=
  {| Meter.Count := 7; Meter.Rate1 := 0.5%float; Meter.Rate5 := 0.25%float;
     Meter.Rate15 := 0.125%float; Meter.RateMean := 1%float |}.

(** The timer of the end-to-end scenario of the specification. *)
Definition latency : Timer.t :=
  {| Timer.Count := 10; Timer.Max := 5000000; Timer.Mean := 2500000%float;
     Timer.Min := 1000000; Timer.StdDev := 1500000%float;
     Timer.Variance := 2250000000000%float;
     Timer.Percentile := fun _ => 2500000%float;
     Timer.Rate1 := 0.5%float; Timer.Rate5 := 0.25%float;
     Timer.Rate15 := 0.125%float; Timer.RateMean := 2%float |}.

(** A timer whose extremes are not whole milliseconds. *)
Definition jittery : Timer.t :=
  {| Timer.Count := 3; Timer.Max := 1500000; Timer.Mean := 1500000%float;
     Timer.Min := 999999; Timer.StdDev := 250000%float;
     Timer.Variance := 500000%float;
     Timer.Percentile := fun _ => 1250000%float;
     Timer.Rate1 := 0.5%float; Timer.Rate5 := 0.25%float;
     Timer.Rate15 := 0.125%float; Timer.RateMean := 2%float |}.

(** A timer that was updated with a negative duration. *)
Definition skewed : Timer.t :=
  {| Timer.Count := 1; Timer.Max := -2000000; Timer.Mean := (-2000000)%float;
     Timer.Min := -2000000; Timer.StdDev := 0%float; Timer.Variance := 0%float;
     Timer.Percentile := fun _ => (-2000000)%float;
     Timer.Rate1 := 0%float; Timer.Rate5 := 0%float;
     Timer.Rate15 := 0%float; Timer.RateMean := 0%float |}.

Definition two_counters : list (string * Instrument) :=
  [ ("requests", ICounter requests); ("errors", ICounter {| Counter.Count := 1 |}) ].

(** Five recognized instruments and one that is not. *)
Definition mixed : list (string * Instrument) :=
  [ ("requests", ICounter requests);
    ("depth", IGauge depth);
    ("health", Unrecognized);
    ("sizes", IHistogram sizes);
    ("hits", IMeter hits);
    ("latency", ITimer latency) ].

End Scenario.

(** ** Panics on a nil handle

    [Ping] and [Write] are methods of [*client.Client] and read the fields of
    their receiver: called on a nil handle they panic.  Nothing in [run]
    recovers from a panic, so it ends the loop and the program. *)

Definition nil_handle (c : option Client) : bool :=
  match c with
  | None => true
  | Some _ => false
  end.

(** Whether the tick [t], taken by [r] in [w], panics.  A health tick calls
    [r.client.Ping()] first of all.  An emission tick calls
    [r.client.Write(bps)] after the walk, unless the host name did not
    resolve.  No tick calls the client a second time. *)
Definition tick_panics (E : Env) (r : reporter) (t : Tick) (w : World) : bool :=
  match t with
  | pingTicker => nil_handle (client r)
  | intervalTicker =>
      match (host_prefix E r w).1 with
      | inl _ => nil_handle (client r)
      | inr _ => false
      end
  end.

(** How the loop stands after the given ticks: at the [select] with a
    reporter and a world, or ended by a panic in the tick [t] that it took
    with [r] in [w]. *)
Inductive Fate : Type :=
| Alive (r : reporter) (w : World)
| Panicked (r : reporter) (w : World) (t : Tick).

Fixpoint fate (E : Env) (r : reporter) (ticks : list Tick) (w : World) : Fate :=
  match ticks with
  | [] => Alive r w
  | t :: ticks' =>
      if tick_panics E r t w then Panicked r w t
      else let (r', w') := run_case E r t w in fate E r' ticks' w'
  end.

(** ** Measures of a run of the loop *)

(** How often each ticker fired in a sequence of ticks. *)
Fixpoint emission_ticks (ticks : list Tick) : nat :=
  match ticks with
  | [] => 0
  | intervalTicker :: ticks' => S (emission_ticks ticks')
  | pingTicker :: ticks' => emission_ticks ticks'
  end.

Fixpoint health_ticks (ticks : list Tick) : nat :=
  match ticks with
  | [] => 0
  | intervalTicker :: ticks' => health_ticks ticks'
  | pingTicker :: ticks' => S (health_ticks ticks')
  end.

(** A point with another timestamp. *)
Definition with_time (now : time.Time) (p : Point) : Point :=
  {| Measurement := Measurement p; Fields := Fields p; Time := now |}.

(** The last three characters of a string, last first. *)
Definition ending (s : string) : list Ascii.ascii :=
  take 3 (reverse (String.list_ascii_of_string s)).

(** More scenarios. *)

Module Outage.

(** As [Scenario.fair], but no write gets through. *)
Definition deaf : Env :=
  {| url_Parse := url_Parse Scenario.fair;
     os_Hostname := os_Hostname Scenario.fair;
     time_Now := time_Now Scenario.fair;
     client_NewClient := client_NewClient Scenario.fair;
     client_Ping := client_Ping Scenario.fair;
     client_Write := fun _ _ _ => Some "connection refused" |}.

(** As [Scenario.fair], but the first ping fails; the construction that
    follows it returns a fresh handle. *)
Definition dropped : Env :=
  {| url_Parse := url_Parse Scenario.fair;
     os_Hostname := os_Hostname Scenario.fair;
     time_Now := time_Now Scenario.fair;
     client_NewClient := client_NewClient Scenario.fair;
     client_Ping := fun k _ =>
       match k with
       | 0%nat => Some "connection refused"
       | _ => None
       end;
     client_Write := client_Write Scenario.fair |}.

End Outage.

(** ** Auxiliary facts *)

Section Facts.

Variable E : Env.

Lemma wrap64_id z : in_int64 z -> wrap64 z = z.
Proof.
  unfold in_int64, min_int64, max_int64, wrap64. intros H.
  rewrite Z.mod_small; lia.
Qed.

Lemma quot_in_int64 z : in_int64 z -> in_int64 (z ÷ 1000000).
Proof.
  unfold in_int64, min_int64, max_int64. intros H.
  assert (Hq := Z.quot_rem' z 1000000).
  assert (Hr := Z.rem_bound_abs z 1000000 ltac:(lia)).
  destruct (Z_le_gt_dec 0 z) as [Hz | Hz].
  - assert (0 <= Z.rem z 1000000) by (apply Z.rem_nonneg; lia). lia.
  - assert (Z.rem z 1000000 <= 0) by (apply Z.rem_nonpos; lia). lia.
Qed.

Lemma int64_div_ms z : in_int64 z -> int64_div z ms_int64 = z ÷ 1000000.
Proof.
  intros H. unfold int64_div. change ms_int64 with 1000000.
  apply wrap64_id, quot_in_int64, H.
Qed.

Lemma ms_float64_eq : ms_float64 = 1000000%float.
Proof. vm_compute. reflexivity. Qed.

Lemma index_Percentiles (f : float64 -> float64) (k : nat) :
  (k < length fractions)%nat ->
  index (map f fractions) k = f (index fractions k).
Proof.
  intros H. do 6 (destruct k as [| k]; [reflexivity |]).
  simpl in H. lia.
Qed.

Lemma send_callback_eq host pts name i w :
  send_callback E host pts name i w =
    (pts ++ entry_points host (time_Now E (now_calls w)) name i, count_now 1 w).
Proof.
  unfold entry_points.
  destruct i; cbn; try reflexivity.
  by rewrite app_nil_r.
Qed.

Lemma each_entry_eq host es : forall pts w,
  each_entry (send_callback E host) es pts w =
    (pts ++ walk_points E host (now_calls w) es, count_now (length es) w).
Proof.
  induction es as [| [name i] es IH]; intros pts w.
  - cbn. rewrite app_nil_r. by destruct w.
  - cbn [each_entry]. unfold bind. rewrite send_callback_eq, IH.
    cbn [walk_points length now_calls count_now].
    rewrite <- app_assoc. f_equal.
    unfold count_now; cbn. f_equal. lia.
Qed.

End Facts.

Section Emission.

Variable E : Env.

Lemma host_prefix_eq r w :
  host_prefix E r w =
    if tagHost r then
      (match os_Hostname E (hostname_calls w) with
       | inl hostName => inl (hostName +:+ ".")
       | inr err => inr err
       end, count_hostname w)
    else (inl "", w).
Proof.
  unfold host_prefix. destruct (tagHost r); [| reflexivity].
  unfold bind, Hostname. by destruct (os_Hostname E (hostname_calls w)).
Qed.

(** The prefix leaves the clock and the registry cursor where they were. *)
Lemma host_prefix_counts r w :
  now_calls (host_prefix E r w).2 = now_calls w /\
  each_calls (host_prefix E r w).2 = each_calls w /\
  write_calls (host_prefix E r w).2 = write_calls w /\
  log_output (host_prefix E r w).2 = log_output w.
Proof. rewrite host_prefix_eq. by destruct (tagHost r). Qed.

(** [send], with its walk over the registry summed up by [walk_points]. *)
Lemma send_eq r w :
  send E r w =
    match (host_prefix E r w).1 with
    | inr err => (Some err, (host_prefix E r w).2)
    | inl host =>
        let es := entries (reg r) (each_calls w) in
        Write E (client r)
          {| Points := walk_points E host (now_calls w) es;
             Database := database r |}
          (count_now (length es) (count_each (host_prefix E r w).2))
    end.
Proof.
  destruct (host_prefix_counts r w) as (Hn & He & _).
  unfold send, bind. destruct (host_prefix E r w) as [[host | err] w1]; cbn in *.
  - unfold Each. rewrite each_entry_eq. cbn. by rewrite Hn, He.
  - reflexivity.
Qed.

Lemma emitted_eq r w :
  emitted E r w =
    match (host_prefix E r w).1 with
    | inr _ => []
    | inl host =>
        [ {| Points := walk_points E host (now_calls w) (entries (reg r) (each_calls w));
             Database := database r |} ]
    end.
Proof.
  destruct (host_prefix_counts r w) as (_ & _ & Hw & _).
  unfold emitted. rewrite send_eq.
  destruct (host_prefix E r w) as [[host | err] w1]; cbn in *.
  - rewrite Hw, drop_app_length. reflexivity.
  - rewrite Hw, drop_all. reflexivity.
Qed.

(** One entry: no point for an unrecognized instrument, and otherwise one
    point named and keyed as the table says, stamped with the reading. *)
Lemma entry_points_kind host now name i :
  match kind_of i with
  | None => entry_points host now name i = []
  | Some k =>
      exists p, entry_points host now name i = [p] /\
        Measurement p = (host +:+ name) +:+ table_suffix k /\
        dom (Fields p) = table_fields k /\
        Time p = now
  end.
Proof.
  destruct i; cbn [kind_of]; try reflexivity;
    (eexists; split; [reflexivity |]; repeat split; cbn [Fields];
     rewrite dom_list_to_map_L; reflexivity).
Qed.

End Emission.

Section Walks.

Variable E : Env.

Lemma append_assoc (a b c : string) : (a +:+ b) +:+ c = a +:+ (b +:+ c).
Proof.
  induction a as [| x a IH]; [reflexivity |].
  change (String x ((a +:+ b) +:+ c) = String x (a +:+ (b +:+ c))).
  by rewrite IH.
Qed.

Lemma walk_points_measurement host es : forall n,
  map Measurement (walk_points E host n es) = omap (table_measurement host) es.
Proof.
  induction es as [| [name i] es IH]; intros n; [reflexivity |].
  cbn [walk_points omap list_omap]. rewrite map_app, IH.
  assert (H := entry_points_kind host (time_Now E n) name i).
  unfold table_measurement at 2. cbn [fst snd].
  destruct (kind_of i) as [k |]; cbn.
  - destruct H as (p & -> & Hm & _). cbn. by rewrite Hm.
  - by rewrite H.
Qed.

Lemma walk_points_time host es : forall n,
  map Time (walk_points E host n es) = walk_stamps E n es.
Proof.
  induction es as [| [name i] es IH]; intros n; [reflexivity |].
  cbn [walk_points walk_stamps snd]. rewrite map_app, IH. f_equal.
  assert (H := entry_points_kind host (time_Now E n) name i).
  destruct (kind_of i) as [k |].
  - destruct H as (p & -> & _ & _ & Ht). cbn. by rewrite Ht.
  - by rewrite H.
Qed.

Lemma walk_points_length host es : forall n,
  length (walk_points E host n es) = length (recognized_kinds es).
Proof.
  unfold recognized_kinds.
  induction es as [| [name i] es IH]; intros n; [reflexivity |].
  cbn [walk_points omap list_omap snd]. rewrite length_app, IH.
  assert (H := entry_points_kind host (time_Now E n) name i).
  destruct (kind_of i) as [k |].
  - destruct H as (p & -> & _). reflexivity.
  - by rewrite H.
Qed.

Lemma recognized_kinds_length es : (length (recognized_kinds es) <= length es)%nat.
Proof.
  unfold recognized_kinds.
  induction es as [| [name i] es IH]; cbn [omap list_omap snd length]; [lia |].
  destruct (kind_of i); cbn [length]; lia.
Qed.

Lemma walk_stamps_constant t es : forall n,
  (forall k, (k < length es)%nat -> time_Now E (n + k) = t) ->
  Forall (fun s => s = t) (walk_stamps E n es).
Proof.
  induction es as [| e es IH]; intros n H; [constructor |].
  cbn [walk_stamps]. apply Forall_app. split.
  - destruct (kind_of e.2); [| constructor].
    constructor; [| constructor].
    rewrite <- (H 0%nat); [f_equal; lia | cbn; lia].
  - apply IH. intros k Hk.
    rewrite <- (H (S k)); [f_equal; lia | cbn; lia].
Qed.

Lemma entry_points_prefix host now name i :
  entry_points host now name i = map (with_prefix host) (entry_points "" now name i).
Proof.
  destruct i; cbn; try reflexivity; unfold with_prefix; cbn;
    by rewrite append_assoc.
Qed.

Lemma walk_points_prefix host es : forall n,
  walk_points E host n es = map (with_prefix host) (walk_points E "" n es).
Proof.
  induction es as [| [name i] es IH]; intros n; [reflexivity |].
  cbn [walk_points]. by rewrite map_app, <- IH, <- entry_points_prefix.
Qed.

(** An emission that is not aborted: one walk, one write, nothing logged. *)
Lemma send_not_aborted r w host :
  (host_prefix E r w).1 = inl host ->
  let es := entries (reg r) (each_calls w) in
  let b := {| Points := walk_points E host (now_calls w) es;
              Database := database r |} in
  send E r w =
    (client_Write E (length (write_calls w)) (client r) b,
     record_write (client r) b
       (count_now (length es) (count_each (host_prefix E r w).2))).
Proof.
  intros Hh es b. rewrite send_eq, Hh.
  destruct (host_prefix_counts E r w) as (_ & _ & Hw & _).
  unfold Write. cbn. by rewrite Hw.
Qed.

End Walks.

Section Timers.

Variable E : Env.

Lemma quot_truncated_ms x : truncated_ms x (x ÷ 1000000).
Proof.
  unfold truncated_ms.
  assert (Hq := Z.quot_rem' x 1000000).
  assert (Hr := Z.rem_bound_abs x 1000000 ltac:(lia)).
  destruct (Z_le_gt_dec 0 x) as [Hx | Hx].
  - assert (0 <= Z.rem x 1000000) by (apply Z.rem_nonneg; lia).
    assert (0 <= x ÷ 1000000) by lia.
    split; [lia | apply Z.mul_nonneg_nonneg; lia].
  - assert (Z.rem x 1000000 <= 0) by (apply Z.rem_nonpos; lia).
    assert (x ÷ 1000000 <= 0) by lia.
    split; [lia | apply Z.mul_nonpos_nonpos; lia].
Qed.

Lemma quot_small x : -1000000 < x < 1000000 -> x ÷ 1000000 = 0.
Proof.
  intros H. destruct (quot_truncated_ms x) as [Hq _]. lia.
Qed.

(** The point of a timer, field by field. *)
Lemma timer_point host pts name (m : Timer.t) w :
  in_int64 (Timer.Max m) -> in_int64 (Timer.Min m) ->
  exists p,
    (send_callback E host pts name (ITimer m) w).1 = pts ++ [p] /\
    Measurement p = (host +:+ name) +:+ ".timer" /\
    Fields p !! "count" = Some (VInt64 (Timer.Count m)) /\
    Fields p !! "max" = Some (VInt64 (Timer.Max m ÷ 1000000)) /\
    Fields p !! "min" = Some (VInt64 (Timer.Min m ÷ 1000000)) /\
    Fields p !! "mean" = Some (VFloat64 (Timer.Mean m / 1000000)%float) /\
    Fields p !! "stddev" = Some (VFloat64 (Timer.StdDev m / 1000000)%float) /\
    Fields p !! "variance" = Some (VFloat64 (Timer.Variance m / 1000000)%float) /\
    Fields p !! "p50" = Some (VFloat64 (Timer.Percentile m 0.5 / 1000000)%float) /\
    Fields p !! "p75" = Some (VFloat64 (Timer.Percentile m 0.75 / 1000000)%float) /\
    Fields p !! "p95" = Some (VFloat64 (Timer.Percentile m 0.95 / 1000000)%float) /\
    Fields p !! "p99" = Some (VFloat64 (Timer.Percentile m 0.99 / 1000000)%float) /\
    Fields p !! "p999" = Some (VFloat64 (Timer.Percentile m 0.999 / 1000000)%float) /\
    Fields p !! "p9999" = Some (VFloat64 (Timer.Percentile m 0.9999 / 1000000)%float) /\
    Fields p !! "m1" = Some (VFloat64 (Timer.Rate1 m)) /\
    Fields p !! "m5" = Some (VFloat64 (Timer.Rate5 m)) /\
    Fields p !! "m15" = Some (VFloat64 (Timer.Rate15 m)) /\
    Fields p !! "meanrate" = Some (VFloat64 (Timer.RateMean m)).
Proof.
  intros Hmax Hmin. eexists. split; [reflexivity |].
  cbn [Measurement Fields]. rewrite !int64_div_ms by assumption.
  rewrite ms_float64_eq. unfold Timer.Percentiles.
  rewrite !index_Percentiles by (cbn; lia).
  repeat split; reflexivity.
Qed.

End Timers.

(** ** The claims of the specification *)

(** C1, as the specification states it, fails: with two counters in the
    registry and a clock that advances between readings, the two points of the
    one batch carry the readings 1000 and 1001. *)
Lemma C1_counterexample :
  exists b,
    emitted Scenario.fair (Scenario.reporting Scenario.two_counters false) initial_world = [b] /\
    map Time (Points b) = [1000; 1001] /\
    ~ time_aligned b.
Proof.
  eexists. split; [reflexivity |]. split; [reflexivity |].
  intros H.
  specialize (H _ _ (list_elem_of_here _ _) (list_elem_of_further _ _ _ (list_elem_of_here _ _))).
  discriminate H.
Qed.

(** C1, amended: the clock is read once for every registry entry that the walk
    visits, inside the callback, and the point built for an entry carries the
    reading taken at that entry ([walk_stamps]); an aborted emission reads no
    clock; the points of a batch share one timestamp whenever the readings of
    the walk are all equal. *)
Theorem C1_one_reading_per_entry (E : Env) (r : reporter) (w : World) :
  let es := entries (reg r) (each_calls w) in
  Forall (fun b => map Time (Points b) = walk_stamps E (now_calls w) es) (emitted E r w) /\
  now_calls (send E r w).2 =
    match (host_prefix E r w).1 with
    | inl _ => (length es + now_calls w)%nat
    | inr _ => now_calls w
    end /\
  (forall t, (forall k, (k < length es)%nat -> time_Now E (now_calls w + k) = t) ->
     Forall time_aligned (emitted E r w)).
Proof.
  intros es. rewrite emitted_eq, send_eq.
  destruct (host_prefix_counts E r w) as (Hn & _).
  destruct (host_prefix E r w) as [[host | err] w1]; cbn in *.
  - fold es. split; [| split].
    + constructor; [| constructor]. apply walk_points_time.
    + lia.
    + intros t Ht. constructor; [| constructor].
      assert (Hs := walk_stamps_constant E t es (now_calls w) Ht).
      rewrite <- (walk_points_time E host) in Hs.
      rewrite Forall_map in Hs. rewrite Forall_forall in Hs.
      intros p q Hp Hq. cbn in Hp, Hq.
      by rewrite (Hs p Hp), (Hs q Hq).
  - split; [constructor | split; [exact Hn | intros; constructor]].
Qed.

(** With a clock that stands still the two counters are stamped alike. *)
Lemma C1_one_reading_per_entry_witness :
  let E := frozen_clock 1000 in
  let r := Scenario.reporting Scenario.two_counters false in
  (forall k, (k < 2)%nat -> time_Now E (0 + k) = 1000) /\
  Forall (fun b => map Time (Points b) = [1000; 1000]) (emitted E r initial_world) /\
  now_calls (send E r initial_world).2 = 2%nat /\
  Forall time_aligned (emitted E r initial_world).
Proof.
  intros E r.
  destruct (C1_one_reading_per_entry E r initial_world) as (H1 & H2 & H3).
  split; [reflexivity |]. split; [exact H1 |]. split; [exact H2 |].
  apply (H3 1000). reflexivity.
Defined.

(** C2: the point of a timer holds, for each duration statistic (max, mean,
    min, stddev, variance and the six percentiles), the reading in
    nanoseconds divided by 1,000,000 with the division of the reading's own
    type (int64 for max and min, float64 for the others); count and the
    rates m1, m5, m15 and meanrate are the readings themselves. *)
Theorem C2_timer_milliseconds (E : Env) (host : string) (pts : list Point)
    (name : string) (m : Timer.t) (w : World) :
  in_int64 (Timer.Max m) -> in_int64 (Timer.Min m) ->
  exists p,
    (send_callback E host pts name (ITimer m) w).1 = pts ++ [p] /\
    Fields p !! "count" = Some (VInt64 (Timer.Count m)) /\
    Fields p !! "max" = Some (VInt64 (Timer.Max m ÷ 1000000)) /\
    Fields p !! "mean" = Some (VFloat64 (Timer.Mean m / 1000000)%float) /\
    Fields p !! "min" = Some (VInt64 (Timer.Min m ÷ 1000000)) /\
    Fields p !! "stddev" = Some (VFloat64 (Timer.StdDev m / 1000000)%float) /\
    Fields p !! "variance" = Some (VFloat64 (Timer.Variance m / 1000000)%float) /\
    Fields p !! "p50" = Some (VFloat64 (Timer.Percentile m 0.5 / 1000000)%float) /\
    Fields p !! "p75" = Some (VFloat64 (Timer.Percentile m 0.75 / 1000000)%float) /\
    Fields p !! "p95" = Some (VFloat64 (Timer.Percentile m 0.95 / 1000000)%float) /\
    Fields p !! "p99" = Some (VFloat64 (Timer.Percentile m 0.99 / 1000000)%float) /\
    Fields p !! "p999" = Some (VFloat64 (Timer.Percentile m 0.999 / 1000000)%float) /\
    Fields p !! "p9999" = Some (VFloat64 (Timer.Percentile m 0.9999 / 1000000)%float) /\
    Fields p !! "m1" = Some (VFloat64 (Timer.Rate1 m)) /\
    Fields p !! "m5" = Some (VFloat64 (Timer.Rate5 m)) /\
    Fields p !! "m15" = Some (VFloat64 (Timer.Rate15 m)) /\
    Fields p !! "meanrate" = Some (VFloat64 (Timer.RateMean m)).
Proof.
  intros Hmax Hmin.
  destruct (timer_point E host pts name m w Hmax Hmin)
    as (p & Hp & _ & Hc & Hma & Hmi & Hme & Hrest).
  exists p. tauto.
Qed.

(** The end-to-end scenario: the timer "latency" with count 10, min
    1,000,000 ns, max 5,000,000 ns, mean 2,500,000 ns and m1 0.5. *)
Lemma C2_timer_milliseconds_witness :
  in_int64 (Timer.Max Scenario.latency) /\ in_int64 (Timer.Min Scenario.latency) /\
  exists p,
    (send_callback Scenario.fair "" [] "latency" (ITimer Scenario.latency) initial_world).1 = [p] /\
    Fields p !! "count" = Some (VInt64 10) /\
    Fields p !! "min" = Some (VInt64 1) /\
    Fields p !! "max" = Some (VInt64 5) /\
    Fields p !! "mean" = Some (VFloat64 2.5%float) /\
    Fields p !! "m1" = Some (VFloat64 0.5%float).
Proof.
  assert (Hmax : in_int64 (Timer.Max Scenario.latency)) by (vm_compute; split; discriminate).
  assert (Hmin : in_int64 (Timer.Min Scenario.latency)) by (vm_compute; split; discriminate).
  split; [exact Hmax |]. split; [exact Hmin |].
  destruct (C2_timer_milliseconds Scenario.fair "" [] "latency" Scenario.latency
              initial_world Hmax Hmin)
    as (p & Hp & Hc & Hma & Hme & Hmi & _ & _ & _ & _ & _ & _ & _ & _ & Hm1 & _).
  exists p. split; [exact Hp |]. split; [exact Hc |]. split; [exact Hmi |].
  split; [exact Hma |]. split; [exact Hme |]. exact Hm1.
Defined.

(** C3: a snapshot with one instrument of a kind of the table yields one batch
    with exactly one point; its measurement name is the (prefixed) entry name
    followed by the suffix of the kind, and the key set of its fields is the
    one the table lists, no key missing and none extra; the point of a counter
    has the single field value, holding the count. *)
Theorem C3_one_point_per_kind (E : Env) (r : reporter) (w : World)
    (host name : string) (i : Instrument) (k : Kind) :
  (host_prefix E r w).1 = inl host ->
  entries (reg r) (each_calls w) = [(name, i)] ->
  kind_of i = Some k ->
  exists p,
    emitted E r w = [ {| Points := [p]; Database := database r |} ] /\
    Measurement p = (host +:+ name) +:+ table_suffix k /\
    dom (Fields p) = table_fields k /\
    (forall m, i = ICounter m -> Fields p = {[ "value" := VInt64 (Counter.Count m) ]}).
Proof.
  intros Hh Hes Hk. rewrite emitted_eq, Hh, Hes. cbn [walk_points].
  assert (H := entry_points_kind host (time_Now E (now_calls w)) name i).
  rewrite Hk in H. destruct H as (p & Hp & Hm & Hd & _).
  exists p. rewrite Hp at 1. cbn [app]. repeat split; try assumption.
  intros m ->. cbn in Hp. by injection Hp as <-.
Qed.

(** The end-to-end scenario: one counter "requests" = 42, no host tag. *)
Lemma C3_one_point_per_kind_witness :
  (host_prefix Scenario.fair (Scenario.reporting [("requests", ICounter Scenario.requests)] false)
     initial_world).1 = inl "" /\
  kind_of (ICounter Scenario.requests) = Some Counter_ /\
  exists p,
    emitted Scenario.fair (Scenario.reporting [("requests", ICounter Scenario.requests)] false)
      initial_world = [ {| Points := [p]; Database := "metrics" |} ] /\
    Measurement p = "requests.count" /\
    dom (Fields p) = {[ "value" ]} /\
    Fields p = {[ "value" := VInt64 42 ]}.
Proof.
  split; [reflexivity |]. split; [reflexivity |].
  destruct (C3_one_point_per_kind Scenario.fair
              (Scenario.reporting [("requests", ICounter Scenario.requests)] false)
              initial_world "" "requests" (ICounter Scenario.requests) Counter_
              eq_refl eq_refl eq_refl) as (p & He & Hm & Hd & Hf).
  exists p. split; [exact He |]. split; [exact Hm |]. split.
  - rewrite Hd. cbn. set_solver.
  - exact (Hf _ eq_refl).
Defined.

(** C4: an emission that is not aborted writes one batch whose points are, in
    visiting order, one point for every entry of a recognized kind, named by
    the entry and the suffix of its kind, and none for any other entry; so
    there are as many points as recognized entries, at most as many as
    entries; [send] logs nothing and returns what [Write] returned. *)
Theorem C4_points_of_recognized_entries (E : Env) (r : reporter) (w : World)
    (host : string) :
  (host_prefix E r w).1 = inl host ->
  let es := entries (reg r) (each_calls w) in
  exists pts,
    emitted E r w = [ {| Points := pts; Database := database r |} ] /\
    map Measurement pts = omap (table_measurement host) es /\
    length pts = length (recognized_kinds es) /\
    (length pts <= length es)%nat /\
    log_output (send E r w).2 = log_output w /\
    (send E r w).1 =
      client_Write E (length (write_calls w)) (client r)
        {| Points := pts; Database := database r |}.
Proof.
  intros Hh es. eexists. split; [by rewrite emitted_eq, Hh |].
  fold es. split; [apply walk_points_measurement |].
  split; [apply walk_points_length |].
  split; [rewrite walk_points_length; apply recognized_kinds_length |].
  rewrite (send_not_aborted E r w host Hh). cbn.
  split; [| reflexivity].
  by destruct (host_prefix_counts E r w) as (_ & _ & _ & ->).
Qed.

(** Five recognized instruments and one unrecognized: five points, none for
    "health", and the whole emission tick leaves the log empty. *)
Lemma C4_points_of_recognized_entries_witness :
  (host_prefix Scenario.fair (Scenario.reporting Scenario.mixed false) initial_world).1 = inl "" /\
  exists pts,
    emitted Scenario.fair (Scenario.reporting Scenario.mixed false) initial_world =
      [ {| Points := pts; Database := "metrics" |} ] /\
    map Measurement pts =
      ["requests.count"; "depth.gauge"; "sizes.histogram"; "hits.meter"; "latency.timer"] /\
    length pts = 5%nat /\
    (length pts <= 6)%nat /\
    log_output (send Scenario.fair (Scenario.reporting Scenario.mixed false) initial_world).2 = [] /\
    (send Scenario.fair (Scenario.reporting Scenario.mixed false) initial_world).1 = None /\
    log_output (run_case Scenario.fair (Scenario.reporting Scenario.mixed false)
                  intervalTicker initial_world).2 = [].
Proof.
  split; [reflexivity |].
  destruct (C4_points_of_recognized_entries Scenario.fair
              (Scenario.reporting Scenario.mixed false) initial_world "" eq_refl)
    as (pts & He & Hm & Hl & Hle & Hlog & Hret).
  exists pts.
  split; [exact He |]. split; [exact Hm |]. split; [exact Hl |].
  split; [exact Hle |]. split; [exact Hlog |]. split; [exact Hret |].
  reflexivity.
Defined.

(** C5: with host tagging on and a host name that cannot be resolved, [send]
    returns the resolution error after the one call of [os.Hostname] and
    nothing else: no clock is read, the registry is not walked, no batch is
    written; the loop logs the error and goes on with the next tick. *)
Theorem C5_hostname_failure_aborts (E : Env) (r : reporter) (w : World) (err : error) :
  tagHost r = true ->
  os_Hostname E (hostname_calls w) = inr err ->
  send E r w = (Some err, count_hostname w) /\
  emitted E r w = [] /\
  forall ticks,
    run E r (intervalTicker :: ticks) w =
      run E r ticks
        (record_log ("unable to send metrics to InfluxDB. err=" +:+ err) (count_hostname w)).
Proof.
  intros Ht Hh.
  assert (Hp : host_prefix E r w = (inr err, count_hostname w))
    by (by rewrite host_prefix_eq, Ht, Hh).
  assert (Hs : send E r w = (Some err, count_hostname w))
    by (by rewrite send_eq, Hp).
  split; [exact Hs |]. split; [by rewrite emitted_eq, Hp |].
  intros ticks. cbn [run run_case]. unfold bind. by rewrite Hs.
Qed.

Lemma C5_hostname_failure_aborts_witness :
  tagHost (Scenario.reporting Scenario.mixed true) = true /\
  os_Hostname Scenario.nameless 0 = inr "hostname: lookup failed" /\
  send Scenario.nameless (Scenario.reporting Scenario.mixed true) initial_world =
    (Some "hostname: lookup failed", count_hostname initial_world) /\
  emitted Scenario.nameless (Scenario.reporting Scenario.mixed true) initial_world = [] /\
  forall ticks,
    run Scenario.nameless (Scenario.reporting Scenario.mixed true)
      (intervalTicker :: ticks) initial_world =
    run Scenario.nameless (Scenario.reporting Scenario.mixed true) ticks
      (record_log "unable to send metrics to InfluxDB. err=hostname: lookup failed"
         (count_hostname initial_world)).
Proof.
  split; [reflexivity |]. split; [reflexivity |].
  exact (C5_hostname_failure_aborts Scenario.nameless
           (Scenario.reporting Scenario.mixed true) initial_world
           "hostname: lookup failed" eq_refl eq_refl).
Defined.

(** C6: for one snapshot, clock and world, the batch built with host tagging
    on is the batch built with host tagging off with the resolved host name
    and a dot put before every measurement name (fields and timestamps are
    the same), and with host tagging off every measurement name is the entry
    name followed by the suffix, with nothing before it. *)
Theorem C6_host_prefix_on_every_point (E : Env) (r : reporter) (w : World)
    (hostName : string) :
  os_Hostname E (hostname_calls w) = inl hostName ->
  let es := entries (reg r) (each_calls w) in
  exists pts_on pts_off,
    emitted E (set_tagHost r true) w = [ {| Points := pts_on; Database := database r |} ] /\
    emitted E (set_tagHost r false) w = [ {| Points := pts_off; Database := database r |} ] /\
    map Measurement pts_off =
      omap (fun e => (fun k => e.1 +:+ table_suffix k) <$> kind_of e.2) es /\
    pts_on = map (with_prefix (hostName +:+ ".")) pts_off /\
    map Measurement pts_on =
      map (fun m => (hostName +:+ ".") +:+ m) (map Measurement pts_off).
Proof.
  intros Hh es.
  exists (walk_points E (hostName +:+ ".") (now_calls w) es),
         (walk_points E "" (now_calls w) es).
  split; [by rewrite emitted_eq, host_prefix_eq; cbn; rewrite Hh |].
  split; [by rewrite emitted_eq, host_prefix_eq |].
  split; [exact (walk_points_measurement E "" es (now_calls w)) |].
  split; [apply walk_points_prefix |].
  rewrite (walk_points_prefix E (hostName +:+ ".")).
  by rewrite !map_map.
Qed.

Lemma C6_host_prefix_on_every_point_witness :
  os_Hostname Scenario.fair 0 = inl "box" /\
  exists pts_on pts_off,
    emitted Scenario.fair (Scenario.reporting Scenario.mixed true) initial_world =
      [ {| Points := pts_on; Database := "metrics" |} ] /\
    emitted Scenario.fair (Scenario.reporting Scenario.mixed false) initial_world =
      [ {| Points := pts_off; Database := "metrics" |} ] /\
    map Measurement pts_off =
      ["requests.count"; "depth.gauge"; "sizes.histogram"; "hits.meter"; "latency.timer"] /\
    pts_on = map (with_prefix "box.") pts_off /\
    map Measurement pts_on =
      ["box.requests.count"; "box.depth.gauge"; "box.sizes.histogram";
       "box.hits.meter"; "box.latency.timer"].
Proof.
  split; [reflexivity |].
  destruct (C6_host_prefix_on_every_point Scenario.fair
              (Scenario.reporting Scenario.mixed false) initial_world "box" eq_refl)
    as (pts_on & pts_off & Hon & Hoff & Hm & Hp & Hmm).
  exists pts_on, pts_off.
  split; [exact Hon |]. split; [exact Hoff |]. split; [exact Hm |].
  split; [exact Hp |].
  rewrite Hmm, Hm. reflexivity.
Defined.

(** C7: when the endpoint does not parse, [InfluxDB] logs the parse error and
    returns, whatever the ticks: nothing else has happened, no client was
    constructed; when the first client construction fails, [InfluxDB] logs
    that error and returns after this one call of [NewClient]: the loop is not
    entered (no ping, no emission) and nothing is tried again. *)
Theorem C7_startup_aborts (E : Env) (reg : Registry) (d : time.Duration)
    (url database username password : string) (tagHost : bool)
    (ticks : list Tick) (w : World) :
  (forall err,
      url_Parse E url = inr err ->
      InfluxDB E reg d url database username password tagHost ticks w =
        (Returned,
         record_log ("unable to parse InfluxDB url " +:+ url +:+ ". err=" +:+ err) w)) /\
  (forall u c err,
      url_Parse E url = inl u ->
      client_NewClient E (length (newclient_calls w))
        {| URL_ := u; Username := username; Password := password |} = (c, Some err) ->
      InfluxDB E reg d url database username password tagHost ticks w =
        (Returned,
         record_log ("unable to make InfluxDB client. err=" +:+ err)
           (record_newclient {| URL_ := u; Username := username; Password := password |} w))).
Proof.
  split.
  - intros err Hp. unfold InfluxDB. by rewrite Hp.
  - intros u c err Hp Hc. unfold InfluxDB. rewrite Hp.
    unfold makeClient, bind, NewClient. cbn. by rewrite Hc.
Qed.

Lemma C7_startup_aborts_witness :
  (url_Parse Scenario.unparsable "localhost:8086" = inr "missing protocol scheme" /\
   forall ticks,
     InfluxDB Scenario.unparsable (Scenario.snapshot Scenario.mixed) (10 * time.Second)
       "localhost:8086" "metrics" "admin" "secret" false ticks initial_world =
     (Returned,
      record_log "unable to parse InfluxDB url localhost:8086. err=missing protocol scheme"
        initial_world)) /\
  (url_Parse Scenario.clientless "http://localhost:8086" = inl {| raw := "http://localhost:8086" |} /\
   forall ticks,
     InfluxDB Scenario.clientless (Scenario.snapshot Scenario.mixed) (10 * time.Second)
       "http://localhost:8086" "metrics" "admin" "secret" false ticks initial_world =
     (Returned,
      record_log "unable to make InfluxDB client. err=no transport"
        (record_newclient
           {| URL_ := {| raw := "http://localhost:8086" |};
              Username := "admin"; Password := "secret" |} initial_world))).
Proof.
  split; (split; [reflexivity |]); intros ticks.
  - exact (proj1 (C7_startup_aborts Scenario.unparsable (Scenario.snapshot Scenario.mixed)
                    (10 * time.Second) "localhost:8086" "metrics" "admin" "secret"
                    false ticks initial_world) _ eq_refl).
  - exact (proj2 (C7_startup_aborts Scenario.clientless (Scenario.snapshot Scenario.mixed)
                    (10 * time.Second) "http://localhost:8086" "metrics" "admin" "secret"
                    false ticks initial_world) _ None _ eq_refl eq_refl).
Defined.



(** C9, as stated, fails on a duration below -1,000,000 ns, which is below
    1,000,000 ns: a timer whose min is -2,000,000 ns gets the field min = -2,
    not 0. *)
Lemma C9_counterexample :
  Timer.Min Scenario.skewed < 1000000 /\
  exists p,
    (send_callback Scenario.fair "" [] "latency" (ITimer Scenario.skewed) initial_world).1 = [p] /\
    Fields p !! "min" = Some (VInt64 (-2)) /\
    Fields p !! "min" <> Some (VInt64 0).
Proof.
  split; [reflexivity |].
  eexists. split; [reflexivity |]. split; [reflexivity |].
  intros H. discriminate H.
Qed.

(** C9, amended: max and min are divided as int64, which truncates toward
    zero: a reading strictly between -1,000,000 and 1,000,000 ns gives 0 and a
    reading that is no multiple of 1,000,000 loses its remainder; mean,
    stddev, variance and the percentiles are divided as float64. *)
Theorem C9_extremes_truncated (E : Env) (host : string) (pts : list Point)
    (name : string) (m : Timer.t) (w : World) :
  in_int64 (Timer.Max m) -> in_int64 (Timer.Min m) ->
  exists p qmax qmin,
    (send_callback E host pts name (ITimer m) w).1 = pts ++ [p] /\
    Fields p !! "max" = Some (VInt64 qmax) /\
    Fields p !! "min" = Some (VInt64 qmin) /\
    truncated_ms (Timer.Max m) qmax /\
    truncated_ms (Timer.Min m) qmin /\
    1000000 * qmax = Timer.Max m - Z.rem (Timer.Max m) 1000000 /\
    1000000 * qmin = Timer.Min m - Z.rem (Timer.Min m) 1000000 /\
    (-1000000 < Timer.Max m < 1000000 -> qmax = 0) /\
    (-1000000 < Timer.Min m < 1000000 -> qmin = 0) /\
    Fields p !! "mean" = Some (VFloat64 (Timer.Mean m / 1000000)%float) /\
    Fields p !! "stddev" = Some (VFloat64 (Timer.StdDev m / 1000000)%float) /\
    Fields p !! "variance" = Some (VFloat64 (Timer.Variance m / 1000000)%float) /\
    Fields p !! "p50" = Some (VFloat64 (Timer.Percentile m 0.5 / 1000000)%float) /\
    Fields p !! "p75" = Some (VFloat64 (Timer.Percentile m 0.75 / 1000000)%float) /\
    Fields p !! "p95" = Some (VFloat64 (Timer.Percentile m 0.95 / 1000000)%float) /\
    Fields p !! "p99" = Some (VFloat64 (Timer.Percentile m 0.99 / 1000000)%float) /\
    Fields p !! "p999" = Some (VFloat64 (Timer.Percentile m 0.999 / 1000000)%float) /\
    Fields p !! "p9999" = Some (VFloat64 (Timer.Percentile m 0.9999 / 1000000)%float).
Proof.
  intros Hmax Hmin.
  destruct (timer_point E host pts name m w Hmax Hmin)
    as (p & Hp & _ & _ & Hma & Hmi & Hme & Hsd & Hva & Hp50 & Hp75 & Hp95 & Hp99
        & Hp999 & Hp9999 & _).
  exists p, (Timer.Max m ÷ 1000000), (Timer.Min m ÷ 1000000).
  split; [exact Hp |]. split; [exact Hma |]. split; [exact Hmi |].
  split; [apply quot_truncated_ms |]. split; [apply quot_truncated_ms |].
  split; [pose proof (Z.quot_rem' (Timer.Max m) 1000000); lia |].
  split; [pose proof (Z.quot_rem' (Timer.Min m) 1000000); lia |].
  split; [apply quot_small |]. split; [apply quot_small |].
  tauto.
Qed.

(** A timer with max 1,500,000 ns, min 999,999 ns and mean 1,500,000 ns: max
    loses its half millisecond, min becomes 0, mean keeps its fraction. *)
Lemma C9_extremes_truncated_witness :
  in_int64 (Timer.Max Scenario.jittery) /\ in_int64 (Timer.Min Scenario.jittery) /\
  exists p,
    (send_callback Scenario.fair "" [] "latency" (ITimer Scenario.jittery) initial_world).1 = [p] /\
    Fields p !! "max" = Some (VInt64 1) /\
    Fields p !! "min" = Some (VInt64 0) /\
    Fields p !! "mean" = Some (VFloat64 1.5%float) /\
    Fields p !! "stddev" = Some (VFloat64 0.25%float) /\
    Fields p !! "variance" = Some (VFloat64 0.5%float) /\
    Fields p !! "p50" = Some (VFloat64 1.25%float).
Proof.
  assert (Hmax : in_int64 (Timer.Max Scenario.jittery)) by (vm_compute; split; discriminate).
  assert (Hmin : in_int64 (Timer.Min Scenario.jittery)) by (vm_compute; split; discriminate).
  split; [exact Hmax |]. split; [exact Hmin |].
  destruct (C9_extremes_truncated Scenario.fair "" [] "latency" Scenario.jittery
              initial_world Hmax Hmin)
    as (p & qmax & qmin & Hp & Hma & Hmi & Ht & _ & _ & _ & _ & Hz & Hme & Hsd & Hva & Hp50 & _).
  exists p. split; [exact Hp |].
  assert (Hq1 : qmax = 1).
  { destruct Ht as [Hb Hs]. change (Timer.Max Scenario.jittery) with 1500000 in Hb, Hs. lia. }
  assert (Hq0 : qmin = 0).
  { apply Hz. change (Timer.Min Scenario.jittery) with 999999. lia. }
  rewrite Hq1 in Hma. rewrite Hq0 in Hmi.
  split; [exact Hma |]. split; [exact Hmi |]. split; [exact Hme |].
  split; [exact Hsd |]. split; [exact Hva |]. exact Hp50.
Defined.

(** C10: an emission that is not aborted hands exactly one batch to [Write],
    with the points of the walk and the configured database name, and returns
    what that call returned; for an empty snapshot the batch has no points and
    is written all the same. *)
Theorem C10_one_write_per_emission (E : Env) (r : reporter) (w : World) (host : string) :
  (host_prefix E r w).1 = inl host ->
  exists pts,
    write_calls (send E r w).2 =
      write_calls w ++ [ (client r, {| Points := pts; Database := database r |}) ] /\
    (send E r w).1 =
      client_Write E (length (write_calls w)) (client r)
        {| Points := pts; Database := database r |} /\
    (entries (reg r) (each_calls w) = [] -> pts = []).
Proof.
  intros Hh. eexists. rewrite (send_not_aborted E r w host Hh). cbn.
  destruct (host_prefix_counts E r w) as (_ & _ & -> & _).
  split; [reflexivity |]. split; [reflexivity |].
  by intros ->.
Qed.

Lemma C10_one_write_per_emission_witness :
  (host_prefix Scenario.fair (Scenario.reporting [] false) initial_world).1 = inl "" /\
  exists pts,
    write_calls (send Scenario.fair (Scenario.reporting [] false) initial_world).2 =
      [ (Some 0%nat, {| Points := pts; Database := "metrics" |}) ] /\
    (send Scenario.fair (Scenario.reporting [] false) initial_world).1 = None /\
    pts = [].
Proof.
  split; [reflexivity |].
  destruct (C10_one_write_per_emission Scenario.fair (Scenario.reporting [] false)
              initial_world "" eq_refl) as (pts & Hw & Hr & He).
  exists pts. split; [exact Hw |]. split; [exact Hr |]. exact (He eq_refl).
Defined.

(** ** Further properties of the reporter *)

Section Frames.

Variable E : Env.

(** What [send] leaves alone, and what it adds. *)
Lemma send_frame r w :
  newclient_calls (send E r w).2 = newclient_calls w /\
  ping_calls (send E r w).2 = ping_calls w /\
  log_output (send E r w).2 = log_output w /\
  hostname_calls (send E r w).2 =
    ((if tagHost r then 1 else 0) + hostname_calls w)%nat /\
  write_calls (send E r w).2 =
    write_calls w ++ map (pair (client r)) (emitted E r w) /\
  each_calls (send E r w).2 = (length (emitted E r w) + each_calls w)%nat /\
  (length (emitted E r w) <= 1)%nat /\
  (tagHost r = false -> length (emitted E r w) = 1%nat).
Proof.
  rewrite emitted_eq, send_eq, host_prefix_eq.
  destruct (tagHost r); cbn; [destruct (os_Hostname E (hostname_calls w)); cbn |];
    rewrite ?app_nil_r; repeat split; (reflexivity || lia || discriminate).
Qed.

Lemma set_client_same r : set_client r (client r) = r.
Proof. by destruct r. Qed.

Lemma run_case_interval r w :
  run_case E r intervalTicker w =
    (r, match (send E r w).1 with
        | Some e => record_log ("unable to send metrics to InfluxDB. err=" +:+ e) (send E r w).2
        | None => (send E r w).2
        end).
Proof.
  cbn [run_case]. unfold bind.
  by destruct (send E r w) as [[e |] w1].
Qed.

(** A tick changes the reporter in its client at most. *)
Lemma run_case_reporter r t w : exists c, (run_case E r t w).1 = set_client r c.
Proof.
  destruct t.
  - rewrite run_case_interval. exists (client r). by rewrite set_client_same.
  - cbn [run_case]. unfold bind, Ping, makeClient, NewClient, Printf. cbn.
    destruct (client_Ping E (length (ping_calls w)) (client r)) as [e |]; cbn.
    + destruct (client_NewClient E _ _) as [c [e' |]]; cbn; by exists c.
    + exists (client r). by rewrite set_client_same.
Qed.

(** The calls of one tick. *)
Lemma run_case_counts r t w :
  let w' := (run_case E r t w).2 in
  length (ping_calls w') = (health_ticks [t] + length (ping_calls w))%nat /\
  (length (newclient_calls w') <= health_ticks [t] + length (newclient_calls w))%nat /\
  (length (log_output w') <=
     emission_ticks [t] + 2 * health_ticks [t] + length (log_output w))%nat /\
  (length (write_calls w') <= emission_ticks [t] + length (write_calls w))%nat /\
  (each_calls w' + length (write_calls w) = each_calls w + length (write_calls w'))%nat /\
  hostname_calls w' =
    ((if tagHost r then emission_ticks [t] else 0) + hostname_calls w)%nat /\
  (tagHost r = false ->
     length (write_calls w') = (emission_ticks [t] + length (write_calls w))%nat).
Proof.
  destruct t.
  - rewrite run_case_interval.
    destruct (send_frame r w) as (Hn & Hp & Hl & Hh & Hw & He & Hle & Hone).
    assert (Hlen : length (write_calls (send E r w).2) =
                   (length (write_calls w) + length (emitted E r w))%nat)
      by (by rewrite Hw, length_app, length_map).
    destruct (send E r w) as [[e |] w1]; cbn in *;
      rewrite ?Hn, ?Hp, ?Hl, ?Hh, ?length_app; cbn;
      (repeat split; try lia; try (destruct (tagHost r); lia);
       intros Ht; specialize (Hone Ht); lia).
  - cbn [run_case]. unfold bind, Ping, makeClient, NewClient, Printf. cbn.
    destruct (client_Ping E (length (ping_calls w)) (client r)) as [e |]; cbn;
      [destruct (client_NewClient E _ _) as [c [e' |]]; cbn |];
      rewrite ?length_app; cbn;
      (repeat split; try lia; destruct (tagHost r); lia).
Qed.

Lemma run_reporter ticks : forall r w, exists c, (run E r ticks w).1 = set_client r c.
Proof.
  induction ticks as [| t ticks IH]; intros r w.
  - exists (client r). cbn. by rewrite set_client_same.
  - cbn [run]. unfold bind.
    destruct (run_case_reporter r t w) as [c Hc].
    destruct (run_case E r t w) as [r1 w1]. cbn in Hc. subst r1.
    destruct (IH (set_client r c) w1) as [c' Hc'].
    exists c'. by rewrite Hc'.
Qed.

Lemma run_counts ticks : forall r w,
  let w' := (run E r ticks w).2 in
  length (ping_calls w') = (health_ticks ticks + length (ping_calls w))%nat /\
  (length (newclient_calls w') <= health_ticks ticks + length (newclient_calls w))%nat /\
  (length (log_output w') <=
     emission_ticks ticks + 2 * health_ticks ticks + length (log_output w))%nat /\
  (length (write_calls w') <= emission_ticks ticks + length (write_calls w))%nat /\
  (each_calls w' + length (write_calls w) = each_calls w + length (write_calls w'))%nat /\
  hostname_calls w' =
    ((if tagHost r then emission_ticks ticks else 0) + hostname_calls w)%nat /\
  (tagHost r = false ->
     length (write_calls w') = (emission_ticks ticks + length (write_calls w))%nat).
Proof.
  induction ticks as [| t ticks IH]; intros r w.
  - cbn. repeat split; try lia. by destruct (tagHost r).
  - cbn [run]. unfold bind.
    assert (H1 := run_case_counts r t w).
    destruct (run_case_reporter r t w) as [c Hc].
    destruct (run_case E r t w) as [r1 w1]. cbn in H1, Hc. subst r1.
    assert (H2 := IH (set_client r c) w1). cbn in H2.
    destruct H1 as (A1 & A2 & A3 & A4 & A5 & A6 & A7).
    destruct H2 as (B1 & B2 & B3 & B4 & B5 & B6 & B7).
    cbn zeta.
    destruct t; cbn [emission_ticks health_ticks] in *;
      (repeat split; try lia; [destruct (tagHost r); lia |];
       intros Ht; specialize (A7 Ht); specialize (B7 Ht); lia).
Qed.

End Frames.

(** X1: whatever ticks arrive and however the outside answers, the loop
    changes the reporter in its client handle only: registry, interval, host
    tagging, URL, database and credentials stay as they were at start-up. *)
Theorem X1_run_keeps_configuration (E : Env) (r : reporter) (ticks : list Tick) (w : World) :
  let r' := (run E r ticks w).1 in
  reg r' = reg r /\ interval r' = interval r /\ tagHost r' = tagHost r /\
  url r' = url r /\ database r' = database r /\
  username r' = username r /\ password r' = password r /\
  stored_config r' = stored_config r.
Proof.
  destruct (run_reporter E ticks r w) as [c Hc]. cbn zeta. rewrite Hc.
  repeat split.
Qed.

(** X2: as long as no ping fails, the loop never constructs a client and the
    reporter it holds stays the one it started with. *)
Theorem X2_no_rebuild_without_failed_ping (E : Env) (r : reporter)
    (ticks : list Tick) (w : World) :
  (forall k c, client_Ping E k c = None) ->
  (run E r ticks w).1 = r /\
  newclient_calls (run E r ticks w).2 = newclient_calls w.
Proof.
  intros Hping. revert w.
  induction ticks as [| t ticks IH]; intros w; [by split |].
  cbn [run]. unfold bind. destruct t.
  - rewrite run_case_interval.
    destruct (send_frame E r w) as (Hn & _).
    destruct (IH (match (send E r w).1 with
                  | Some e => record_log ("unable to send metrics to InfluxDB. err=" +:+ e)
                                (send E r w).2
                  | None => (send E r w).2
                  end)) as [H1 H2].
    split; [exact H1 |]. rewrite H2. by destruct (send E r w).1.
  - cbn [run_case]. unfold bind, Ping. rewrite Hping. cbn -[run].
    destruct (IH (record_ping (client r) w)) as [H1 H2].
    split; [exact H1 |]. by rewrite H2.
Qed.

Lemma X2_no_rebuild_without_failed_ping_witness :
  (forall k c, client_Ping Scenario.fair k c = None) /\
  (run Scenario.fair (Scenario.reporting Scenario.mixed true)
     [pingTicker; intervalTicker; pingTicker] initial_world).1 =
    Scenario.reporting Scenario.mixed true /\
  newclient_calls
    (run Scenario.fair (Scenario.reporting Scenario.mixed true)
       [pingTicker; intervalTicker; pingTicker] initial_world).2 = [].
Proof.
  split; [reflexivity |].
  exact (X2_no_rebuild_without_failed_ping Scenario.fair
           (Scenario.reporting Scenario.mixed true)
           [pingTicker; intervalTicker; pingTicker] initial_world
           (fun _ _ => eq_refl)).
Defined.

(** X3: the health side of a run.  Every health tick pings exactly once and
    emission ticks never ping; clients are constructed at most once per health
    tick; at most one line is logged per emission tick and two per health
    tick. *)
Theorem X3_health_accounting (E : Env) (r : reporter) (ticks : list Tick) (w : World) :
  let w' := (run E r ticks w).2 in
  length (ping_calls w') = (health_ticks ticks + length (ping_calls w))%nat /\
  (length (newclient_calls w') <= health_ticks ticks + length (newclient_calls w))%nat /\
  (length (log_output w') <=
     emission_ticks ticks + 2 * health_ticks ticks + length (log_output w))%nat.
Proof.
  destruct (run_counts E ticks r w) as (H1 & H2 & H3 & _). by repeat split.
Qed.

(** X4: the emission side of a run.  At most one batch is written per emission
    tick and health ticks write none; every walk over the registry is followed
    by exactly one write; the host name is resolved anew at every emission
    tick when host tagging is on, and never when it is off; with host tagging
    off every emission tick writes exactly one batch. *)
Theorem X4_emission_accounting (E : Env) (r : reporter) (ticks : list Tick) (w : World) :
  let w' := (run E r ticks w).2 in
  (length (write_calls w') <= emission_ticks ticks + length (write_calls w))%nat /\
  (each_calls w' + length (write_calls w) = each_calls w + length (write_calls w'))%nat /\
  hostname_calls w' =
    ((if tagHost r then emission_ticks ticks else 0) + hostname_calls w)%nat /\
  (tagHost r = false ->
     length (write_calls w') = (emission_ticks ticks + length (write_calls w))%nat).
Proof.
  destruct (run_counts E ticks r w) as (_ & _ & _ & H4 & H5 & H6 & H7). by repeat split.
Qed.

Lemma X4_emission_accounting_witness :
  let w' := (run Scenario.nameless (Scenario.reporting Scenario.mixed true)
               [intervalTicker; pingTicker; intervalTicker] initial_world).2 in
  let v' := (run Scenario.fair (Scenario.reporting Scenario.mixed false)
               [intervalTicker; pingTicker; intervalTicker] initial_world).2 in
  tagHost (Scenario.reporting Scenario.mixed false) = false /\
  length (write_calls w') = 0%nat /\ each_calls w' = 0%nat /\ hostname_calls w' = 2%nat /\
  length (write_calls v') = 2%nat /\ each_calls v' = 2%nat /\ hostname_calls v' = 0%nat.
Proof.
  intros w' v'.
  destruct (X4_emission_accounting Scenario.fair (Scenario.reporting Scenario.mixed false)
              [intervalTicker; pingTicker; intervalTicker] initial_world)
    as (_ & _ & Hh & Hw).
  split; [reflexivity |]. split; [reflexivity |]. split; [reflexivity |].
  split; [reflexivity |]. split; [exact (Hw eq_refl) |]. split; [reflexivity |].
  exact Hh.
Defined.

(** X5: [send] itself never logs, never pings and never constructs a client,
    whether it is aborted, fails to write or succeeds; it resolves the host
    name exactly once when host tagging is on and not at all when it is off;
    it writes at most one batch, through the client the reporter holds. *)
Theorem X5_send_touches_only_its_own_calls (E : Env) (r : reporter) (w : World) :
  newclient_calls (send E r w).2 = newclient_calls w /\
  ping_calls (send E r w).2 = ping_calls w /\
  log_output (send E r w).2 = log_output w /\
  hostname_calls (send E r w).2 =
    ((if tagHost r then 1 else 0) + hostname_calls w)%nat /\
  write_calls (send E r w).2 =
    write_calls w ++ map (pair (client r)) (emitted E r w) /\
  (length (emitted E r w) <= 1)%nat.
Proof.
  destruct (send_frame E r w) as (H1 & H2 & H3 & H4 & H5 & _ & H7 & _).
  by repeat split.
Qed.

Section Faults.

Variable E : Env.

(** The host prefix depends on the host tagging flag and on the number of
    earlier host name resolutions only. *)
Lemma host_prefix_same r r' w w' :
  tagHost r' = tagHost r -> hostname_calls w' = hostname_calls w ->
  (host_prefix E r' w').1 = (host_prefix E r w).1.
Proof. intros Ht Hh. rewrite !host_prefix_eq, Ht, Hh. by destruct (tagHost r). Qed.

(** In an environment without faults [send] returns no error. *)
Lemma send_without_fault r w :
  (forall k, exists h, os_Hostname E k = inl h) ->
  (forall k c b, client_Write E k c b = None) ->
  (send E r w).1 = None /\ length (emitted E r w) = 1%nat.
Proof.
  intros Hh Hw. rewrite emitted_eq, send_eq, host_prefix_eq.
  destruct (Hh (hostname_calls w)) as [h Hhost].
  destruct (tagHost r); cbn; rewrite ?Hhost; cbn; by rewrite Hw.
Qed.

End Faults.

(** X6: an emission that gets past the host prefix and then fails costs
    exactly one write attempt and one log line, which carries the error; the
    reporter is left as it was and the batch is not tried again within the
    tick. *)
Theorem X6_failed_write_is_logged_once (E : Env) (r : reporter) (w : World)
    (host : string) (e : error) :
  (host_prefix E r w).1 = inl host ->
  (send E r w).1 = Some e ->
  exists pts,
    (run_case E r intervalTicker w).1 = r /\
    write_calls (run_case E r intervalTicker w).2 =
      write_calls w ++ [ (client r, {| Points := pts; Database := database r |}) ] /\
    client_Write E (length (write_calls w)) (client r)
      {| Points := pts; Database := database r |} = Some e /\
    log_output (run_case E r intervalTicker w).2 =
      log_output w ++ [ "unable to send metrics to InfluxDB. err=" +:+ e ].
Proof.
  intros Hh He. rewrite run_case_interval, He.
  rewrite (send_not_aborted E r w host Hh) in *. cbn in *.
  destruct (host_prefix_counts E r w) as (_ & _ & Hw & Hl).
  eexists. rewrite Hw, Hl. repeat split. exact He.
Qed.

Lemma X6_failed_write_is_logged_once_witness :
  (host_prefix Outage.deaf (Scenario.reporting Scenario.two_counters false) initial_world).1
    = inl "" /\
  (send Outage.deaf (Scenario.reporting Scenario.two_counters false) initial_world).1
    = Some "connection refused" /\
  exists pts,
    (run_case Outage.deaf (Scenario.reporting Scenario.two_counters false)
       intervalTicker initial_world).1 = Scenario.reporting Scenario.two_counters false /\
    write_calls (run_case Outage.deaf (Scenario.reporting Scenario.two_counters false)
                   intervalTicker initial_world).2 =
      [ (Some 0%nat, {| Points := pts; Database := "metrics" |}) ] /\
    map Measurement pts = ["requests.count"; "errors.count"] /\
    log_output (run_case Outage.deaf (Scenario.reporting Scenario.two_counters false)
                  intervalTicker initial_world).2 =
      [ "unable to send metrics to InfluxDB. err=connection refused" ].
Proof.
  split; [reflexivity |]. split; [reflexivity |].
  destruct (X6_failed_write_is_logged_once Outage.deaf
              (Scenario.reporting Scenario.two_counters false) initial_world
              "" "connection refused" eq_refl eq_refl)
    as (pts & Hr & Hw & _ & Hl).
  exists pts. split; [exact Hr |]. split; [exact Hw |]. split; [| exact Hl].
  cbn in Hw. injection Hw as <-. reflexivity.
Defined.

Section Panics.

Variable E : Env.

(** A tick taken with a handle that is not nil does not panic. *)
Lemma tick_panics_live r t w h : client r = Some h -> tick_panics E r t w = false.
Proof.
  intros Hc. destruct t; cbn [tick_panics]; rewrite Hc; cbn [nil_handle];
    [by destruct (host_prefix E r w).1 | reflexivity].
Qed.

(** While every construction returns a handle, a handle that is not nil stays
    so across a tick. *)
Lemma run_case_live r t w :
  (forall k cfg, (client_NewClient E k cfg).1 <> None) ->
  client r <> None -> client (run_case E r t w).1 <> None.
Proof.
  intros Hnew Hc. destruct t.
  - by rewrite run_case_interval.
  - cbn [run_case]. unfold bind, Ping, makeClient, NewClient, Printf. cbn.
    destruct (client_Ping E (length (ping_calls w)) (client r)) as [e |]; cbn;
      [| exact Hc].
    specialize (Hnew (length (newclient_calls w))
                  {| URL_ := url r; Username := username r; Password := password r |}).
    by destruct (client_NewClient E _ _) as [c [e' |]].
Qed.

Lemma fate_live ticks : forall r w,
  (forall k cfg, (client_NewClient E k cfg).1 <> None) ->
  client r <> None ->
  fate E r ticks w = Alive (run E r ticks w).1 (run E r ticks w).2 /\
  client (run E r ticks w).1 <> None.
Proof.
  induction ticks as [| t ticks IH]; intros r w Hnew Hc; [by split |].
  cbn [fate run]. unfold bind.
  destruct (client r) as [h |] eqn:Hh; [| done].
  rewrite (tick_panics_live r t w h Hh).
  assert (Hlive := run_case_live r t w Hnew). rewrite Hh in Hlive.
  destruct (run_case E r t w) as [r1 w1]. cbn [fst] in Hlive.
  apply IH; [exact Hnew | by apply Hlive].
Qed.

End Panics.

(** X7: after a failed ping the reporter holds the handle that [NewClient]
    returned, when it returned one: the earlier handle is not used again, no
    tick panics, and the next emission writes through the new handle. *)
Theorem X7_rebuild_replaces_the_handle (E : Env) (r : reporter) (w : World)
    (host : string) (e : error) (h0 h : Client) (err : option error) :
  client r = Some h0 ->
  client_Ping E (length (ping_calls w)) (Some h0) = Some e ->
  client_NewClient E (length (newclient_calls w)) (stored_config r) = (Some h, err) ->
  (host_prefix E r w).1 = inl host ->
  exists w' pts,
    fate E r [pingTicker; intervalTicker] w = Alive (set_client r (Some h)) w' /\
    write_calls w' =
      write_calls w ++ [ (Some h, {| Points := pts; Database := database r |}) ].
Proof.
  intros Hc Hp Hn Hh.
  assert (Hstep : exists w1,
             run_case E r pingTicker w = (set_client r (Some h), w1) /\
             hostname_calls w1 = hostname_calls w /\ write_calls w1 = write_calls w).
  { cbn [run_case]. unfold bind, Ping, makeClient, NewClient, Printf.
    rewrite Hc, Hp. cbn. fold (stored_config r). rewrite Hn.
    destruct err as [e' |]; cbn; eexists; repeat split. }
  destruct Hstep as (w1 & Hstep & Hhost & Hwrites).
  cbn [fate]. rewrite (tick_panics_live E r pingTicker w h0 Hc), Hstep.
  rewrite (tick_panics_live E (set_client r (Some h)) intervalTicker w1 h eq_refl).
  rewrite run_case_interval.
  assert (Hh1 : (host_prefix E (set_client r (Some h)) w1).1 = inl host)
    by (by rewrite (host_prefix_same E r (set_client r (Some h)) w w1)).
  rewrite (send_not_aborted E (set_client r (Some h)) w1 host Hh1). cbn [fst snd].
  do 2 eexists. split; [reflexivity |].
  destruct (client_Write E _ _ _); cbn;
    destruct (host_prefix_counts E (set_client r (Some h)) w1) as (_ & _ & -> & _);
    by rewrite Hwrites.
Qed.

(** The ping on the handle 0 fails and the construction returns the handle 0
    of a new client ([Outage.dropped] numbers the handles by construction, and
    none was constructed before): the emission goes through it. *)
Lemma X7_rebuild_replaces_the_handle_witness :
  let r := Scenario.reporting Scenario.two_counters false in
  let w := record_newclient (stored_config r) initial_world in
  client r = Some 0%nat /\
  client_Ping Outage.dropped 0 (Some 0%nat) = Some "connection refused" /\
  client_NewClient Outage.dropped 1 (stored_config r) = (Some 1%nat, None) /\
  (host_prefix Outage.dropped r w).1 = inl "" /\
  exists w' pts,
    fate Outage.dropped r [pingTicker; intervalTicker] w = Alive (set_client r (Some 1%nat)) w' /\
    write_calls w' = [ (Some 1%nat, {| Points := pts; Database := "metrics" |}) ].
Proof.
  intros r w.
  split; [reflexivity |]. split; [reflexivity |]. split; [reflexivity |].
  split; [reflexivity |].
  exact (X7_rebuild_replaces_the_handle Outage.dropped r w "" "connection refused"
           0%nat 1%nat None eq_refl eq_refl eq_refl eq_refl).
Defined.

Section Appending.

Variable E : Env.

(** The loop only adds to the list of client constructions. *)
Lemma run_newclient_calls ticks : forall r w,
  exists rest, newclient_calls (run E r ticks w).2 = newclient_calls w ++ rest.
Proof.
  induction ticks as [| t ticks IH]; intros r w.
  - exists []. cbn. by rewrite app_nil_r.
  - cbn [run]. unfold bind.
    assert (Hs : exists more, newclient_calls (run_case E r t w).2 = newclient_calls w ++ more).
    { destruct t.
      - rewrite run_case_interval.
        destruct (send_frame E r w) as (Hf & _).
        exists []. rewrite app_nil_r, <- Hf. by destruct (send E r w).1.
      - cbn [run_case]. unfold bind, Ping, makeClient, NewClient, Printf. cbn.
        destruct (client_Ping E _ _); cbn;
          [destruct (client_NewClient E _ _) as [c0 [e0 |]]; cbn |]; eauto.
        exists []. by rewrite app_nil_r. }
    destruct Hs as [more Hs].
    destruct (run_case E r t w) as [r1 w1]. cbn in Hs.
    destruct (IH r1 w1) as [rest Hrest].
    exists (more ++ rest). by rewrite Hrest, Hs, app_assoc.
Qed.

End Appending.

(** X8: when the endpoint parses, the first construction returns a handle
    and no error, and every later construction returns a handle, then after
    any sequence of ticks [InfluxDB] has neither returned nor panicked: it is
    in the loop with a handle that is not nil and with the registry, interval,
    flag, parsed URL, database and credentials it was called with; the first
    client was asked for with that URL and those credentials. *)
Theorem X8_startup_enters_the_loop (E : Env) (registry : Registry) (d : time.Duration)
    (endpoint db user pass : string) (tag : bool)
    (ticks : list Tick) (w : World) (u : URL) (h : Client) :
  let cfg := {| URL_ := u; Username := user; Password := pass |} in
  url_Parse E endpoint = inl u ->
  client_NewClient E (length (newclient_calls w)) cfg = (Some h, None) ->
  (forall k c, (client_NewClient E k c).1 <> None) ->
  exists h' w',
    InfluxDB E registry d endpoint db user pass tag ticks w =
      (Looping {| reg := registry; interval := d; tagHost := tag; url := u;
                  database := db; username := user; password := pass;
                  client := Some h' |}, w') /\
    fate E {| reg := registry; interval := d; tagHost := tag; url := u;
              database := db; username := user; password := pass;
              client := Some h |} ticks (record_newclient cfg w) =
      Alive {| reg := registry; interval := d; tagHost := tag; url := u;
               database := db; username := user; password := pass;
               client := Some h' |} w' /\
    newclient_calls w' !! length (newclient_calls w) = Some cfg.
Proof.
  intros cfg Hp Hc Hnew. unfold InfluxDB. rewrite Hp.
  unfold makeClient, bind, NewClient. cbn. fold cfg. rewrite Hc. cbn.
  set (rep := set_client _ (Some h)).
  destruct (run_reporter E ticks rep (record_newclient cfg w)) as [c' Hc'].
  destruct (run_newclient_calls E ticks rep (record_newclient cfg w)) as [rest Hn].
  destruct (fate_live E ticks rep (record_newclient cfg w) Hnew) as [Hf Hlive];
    [discriminate |].
  destruct (run E rep ticks (record_newclient cfg w)) as [r' w'] eqn:Hrun.
  cbn [fst snd] in Hc', Hn, Hf, Hlive. subst r'.
  destruct c' as [h' |]; [| done].
  exists h', w'. split; [reflexivity |]. split; [exact Hf |].
  cbn in Hn. rewrite Hn, <- app_assoc. by rewrite lookup_app_r, Nat.sub_diag.
Qed.

Lemma X8_startup_enters_the_loop_witness :
  url_Parse Scenario.fair "http://localhost:8086" = inl {| raw := "http://localhost:8086" |} /\
  (forall k c, (client_NewClient Scenario.fair k c).1 <> None) /\
  exists h' w',
    InfluxDB Scenario.fair (Scenario.snapshot Scenario.mixed) (10 * time.Second)
      "http://localhost:8086" "metrics" "admin" "secret" true
      [pingTicker; intervalTicker] initial_world =
      (Looping {| reg := Scenario.snapshot Scenario.mixed; interval := 10 * time.Second;
                  tagHost := true; url := {| raw := "http://localhost:8086" |};
                  database := "metrics"; username := "admin"; password := "secret";
                  client := Some h' |}, w') /\
    fate Scenario.fair
      {| reg := Scenario.snapshot Scenario.mixed; interval := 10 * time.Second;
         tagHost := true; url := {| raw := "http://localhost:8086" |};
         database := "metrics"; username := "admin"; password := "secret";
         client := Some 0%nat |}
      [pingTicker; intervalTicker]
      (record_newclient {| URL_ := {| raw := "http://localhost:8086" |};
                           Username := "admin"; Password := "secret" |} initial_world) =
      Alive {| reg := Scenario.snapshot Scenario.mixed; interval := 10 * time.Second;
               tagHost := true; url := {| raw := "http://localhost:8086" |};
               database := "metrics"; username := "admin"; password := "secret";
               client := Some h' |} w' /\
    newclient_calls w' !! 0%nat =
      Some {| URL_ := {| raw := "http://localhost:8086" |};
              Username := "admin"; Password := "secret" |}.
Proof.
  assert (Hnew : forall k c, (client_NewClient Scenario.fair k c).1 <> None)
    by (intros k c; discriminate).
  split; [reflexivity |]. split; [exact Hnew |].
  exact (X8_startup_enters_the_loop Scenario.fair (Scenario.snapshot Scenario.mixed)
           (10 * time.Second) "http://localhost:8086" "metrics" "admin" "secret" true
           [pingTicker; intervalTicker] initial_world
           {| raw := "http://localhost:8086" |} 0%nat eq_refl eq_refl Hnew).
Defined.

(** X9: while every host name resolution, every write and every ping
    succeeds, the loop logs nothing and writes exactly one batch per emission
    tick, with or without host tagging. *)
Theorem X9_no_fault_nothing_logged (E : Env) (r : reporter) (ticks : list Tick) (w : World) :
  (forall k, exists h, os_Hostname E k = inl h) ->
  (forall k c b, client_Write E k c b = None) ->
  (forall k c, client_Ping E k c = None) ->
  log_output (run E r ticks w).2 = log_output w /\
  length (write_calls (run E r ticks w).2) =
    (emission_ticks ticks + length (write_calls w))%nat.
Proof.
  intros Hh Hw Hp. revert w.
  induction ticks as [| t ticks IH]; intros w; [by split |].
  cbn [run]. unfold bind. destruct t.
  - rewrite run_case_interval.
    destruct (send_without_fault E r w Hh Hw) as [Hs He].
    destruct (send_frame E r w) as (_ & _ & Hl & _ & Hwr & _).
    rewrite Hs. destruct (IH (send E r w).2) as [H1 H2].
    split; [by rewrite H1 |].
    rewrite H2, Hwr, length_app, length_map, He. cbn. lia.
  - cbn [run_case]. unfold bind, Ping. rewrite Hp. cbn -[run].
    destruct (IH (record_ping (client r) w)) as [H1 H2].
    split; [by rewrite H1 | by rewrite H2].
Qed.

Lemma X9_no_fault_nothing_logged_witness :
  (forall k, exists h, os_Hostname Scenario.fair k = inl h) /\
  (forall k c b, client_Write Scenario.fair k c b = None) /\
  (forall k c, client_Ping Scenario.fair k c = None) /\
  log_output (run Scenario.fair (Scenario.reporting Scenario.mixed true)
                [intervalTicker; pingTicker; intervalTicker] initial_world).2 = [] /\
  length (write_calls (run Scenario.fair (Scenario.reporting Scenario.mixed true)
                         [intervalTicker; pingTicker; intervalTicker] initial_world).2) = 2%nat.
Proof.
  split; [intros k; exists "box"; reflexivity |].
  split; [reflexivity |]. split; [reflexivity |].
  exact (X9_no_fault_nothing_logged Scenario.fair (Scenario.reporting Scenario.mixed true)
           [intervalTicker; pingTicker; intervalTicker] initial_world
           (fun _ => ex_intro _ "box" eq_refl) (fun _ _ _ => eq_refl) (fun _ _ => eq_refl)).
Defined.

Section Retiming.

Variable E : Env.

Lemma entry_points_retime host now now' name i :
  entry_points host now' name i = map (with_time now') (entry_points host now name i).
Proof. by destruct i. Qed.

Lemma walk_points_untimed (E' : Env) host es : forall n n',
  map Measurement (walk_points E host n es) = map Measurement (walk_points E' host n' es) /\
  map Fields (walk_points E host n es) = map Fields (walk_points E' host n' es).
Proof.
  induction es as [| [name i] es IH]; intros n n'; [by split |].
  cbn [walk_points]. rewrite !map_app.
  destruct (IH (S n) (S n')) as [-> ->].
  rewrite (entry_points_retime host (time_Now E' n') (time_Now E n) name i).
  rewrite !map_map. by split.
Qed.

End Retiming.

(** X10: two emissions over the same entries with the same host prefix, in
    whatever environments and at whatever times, build batches with the same
    measurement names and the same fields in the same order; they can differ
    in the timestamps only. *)
Theorem X10_translation_depends_on_time_only_in_stamps (E1 E2 : Env) (r : reporter)
    (w1 w2 : World) (host : string) :
  (host_prefix E1 r w1).1 = inl host ->
  (host_prefix E2 r w2).1 = inl host ->
  entries (reg r) (each_calls w1) = entries (reg r) (each_calls w2) ->
  exists pts1 pts2,
    emitted E1 r w1 = [ {| Points := pts1; Database := database r |} ] /\
    emitted E2 r w2 = [ {| Points := pts2; Database := database r |} ] /\
    map Measurement pts1 = map Measurement pts2 /\
    map Fields pts1 = map Fields pts2.
Proof.
  intros H1 H2 He. rewrite !emitted_eq, H1, H2, He.
  do 2 eexists. split; [reflexivity |]. split; [reflexivity |].
  apply walk_points_untimed.
Qed.

(** The second of two consecutive emissions over a fixed snapshot. *)
Lemma X10_translation_depends_on_time_only_in_stamps_witness :
  let r := Scenario.reporting Scenario.mixed false in
  let w2 := (send Scenario.fair r initial_world).2 in
  (host_prefix Scenario.fair r initial_world).1 = inl "" /\
  (host_prefix Scenario.fair r w2).1 = inl "" /\
  exists pts1 pts2,
    emitted Scenario.fair r initial_world = [ {| Points := pts1; Database := "metrics" |} ] /\
    emitted Scenario.fair r w2 = [ {| Points := pts2; Database := "metrics" |} ] /\
    map Measurement pts1 = map Measurement pts2 /\
    map Fields pts1 = map Fields pts2 /\
    map Time pts1 = [1000; 1001; 1003; 1004; 1005] /\
    map Time pts2 = [1006; 1007; 1009; 1010; 1011].
Proof.
  intros r w2.
  split; [reflexivity |]. split; [reflexivity |].
  destruct (X10_translation_depends_on_time_only_in_stamps Scenario.fair Scenario.fair
              r initial_world w2 "" eq_refl eq_refl eq_refl)
    as (pts1 & pts2 & He1 & He2 & Hm & Hf).
  exists pts1, pts2.
  split; [exact He1 |]. split; [exact He2 |]. split; [exact Hm |]. split; [exact Hf |].
  cbn in He1, He2. injection He1 as <-. injection He2 as <-.
  split; reflexivity.
Defined.

(** X11: the point of a histogram holds the readings as they are, without any
    conversion: count, max and min as int64, mean, stddev and variance as
    float64, and under p50 ... p9999 the percentiles at 0.5, 0.75, 0.95, 0.99,
    0.999 and 0.9999 in this order; it has no rate field and no value field. *)
Theorem X11_histogram_fields_unconverted (E : Env) (host : string) (pts : list Point)
    (name : string) (m : Histogram.t) (w : World) :
  exists p,
    (send_callback E host pts name (IHistogram m) w).1 = pts ++ [p] /\
    Measurement p = (host +:+ name) +:+ ".histogram" /\
    Time p = time_Now E (now_calls w) /\
    Fields p !! "count" = Some (VInt64 (Histogram.Count m)) /\
    Fields p !! "max" = Some (VInt64 (Histogram.Max m)) /\
    Fields p !! "mean" = Some (VFloat64 (Histogram.Mean m)) /\
    Fields p !! "min" = Some (VInt64 (Histogram.Min m)) /\
    Fields p !! "stddev" = Some (VFloat64 (Histogram.StdDev m)) /\
    Fields p !! "variance" = Some (VFloat64 (Histogram.Variance m)) /\
    Fields p !! "p50" = Some (VFloat64 (Histogram.Percentile m 0.5%float)) /\
    Fields p !! "p75" = Some (VFloat64 (Histogram.Percentile m 0.75%float)) /\
    Fields p !! "p95" = Some (VFloat64 (Histogram.Percentile m 0.95%float)) /\
    Fields p !! "p99" = Some (VFloat64 (Histogram.Percentile m 0.99%float)) /\
    Fields p !! "p999" = Some (VFloat64 (Histogram.Percentile m 0.999%float)) /\
    Fields p !! "p9999" = Some (VFloat64 (Histogram.Percentile m 0.9999%float)) /\
    Fields p !! "m1" = None /\ Fields p !! "meanrate" = None /\
    Fields p !! "value" = None.
Proof.
  eexists. split; [reflexivity |].
  cbn [Measurement Fields Time]. unfold Histogram.Percentiles.
  rewrite !index_Percentiles by (cbn; lia).
  repeat split; reflexivity.
Qed.

(** X12: the mean rate goes by two names.  In the point of a meter the key
    mean holds the mean rate and there is no key meanrate; in the point of a
    timer the key meanrate holds the mean rate and the key mean holds the
    mean duration in milliseconds.  The rates m1, m5, m15 and the count are
    the readings in both. *)
Theorem X12_mean_rate_keys (E : Env) (host : string) (pts : list Point)
    (name : string) (m : Meter.t) (t : Timer.t) (w : World) :
  exists p q,
    (send_callback E host pts name (IMeter m) w).1 = pts ++ [p] /\
    (send_callback E host pts name (ITimer t) w).1 = pts ++ [q] /\
    Measurement p = (host +:+ name) +:+ ".meter" /\
    Fields p !! "count" = Some (VInt64 (Meter.Count m)) /\
    Fields p !! "m1" = Some (VFloat64 (Meter.Rate1 m)) /\
    Fields p !! "m5" = Some (VFloat64 (Meter.Rate5 m)) /\
    Fields p !! "m15" = Some (VFloat64 (Meter.Rate15 m)) /\
    Fields p !! "mean" = Some (VFloat64 (Meter.RateMean m)) /\
    Fields p !! "meanrate" = None /\
    Fields q !! "meanrate" = Some (VFloat64 (Timer.RateMean t)) /\
    Fields q !! "mean" = Some (VFloat64 (Timer.Mean t / 1000000)%float).
Proof.
  do 2 eexists. split; [reflexivity |]. split; [reflexivity |].
  cbn [Measurement Fields]. rewrite ms_float64_eq.
  repeat split; reflexivity.
Qed.

(** X13: a Gauge and a GaugeFloat64 of one name, translated in whatever two
    callback calls, give points with the same measurement name and the same
    single key value; the value is an int64 for the one and a float64 for the
    other, and each point carries the clock reading of its own call. *)
Theorem X13_gauges_share_a_measurement (E1 E2 : Env) (host : string)
    (pts1 pts2 : list Point) (name : string) (g : Gauge.t) (f : GaugeFloat64.t)
    (w1 w2 : World) :
  exists p q,
    (send_callback E1 host pts1 name (IGauge g) w1).1 = pts1 ++ [p] /\
    (send_callback E2 host pts2 name (IGaugeFloat64 f) w2).1 = pts2 ++ [q] /\
    Measurement p = (host +:+ name) +:+ ".gauge" /\
    Measurement q = Measurement p /\
    dom (Fields q) = dom (Fields p) /\
    Fields p = {[ "value" := VInt64 (Gauge.Value g) ]} /\
    Fields q = {[ "value" := VFloat64 (GaugeFloat64.Value f) ]} /\
    Time p = time_Now E1 (now_calls w1) /\
    Time q = time_Now E2 (now_calls w2).
Proof.
  do 2 eexists. split; [reflexivity |]. split; [reflexivity |].
  cbn [Measurement Fields Time]. repeat split.
Qed.

Section Monotone.

Variable E : Env.

Lemma walk_stamps_from n es : forall m,
  (forall j k, (j <= k)%nat -> time_Now E j <= time_Now E k) ->
  (n <= m)%nat ->
  Forall (fun s => time_Now E n <= s) (walk_stamps E m es).
Proof.
  induction es as [| e es IH]; intros m Hmono Hle; [constructor |].
  cbn [walk_stamps]. apply Forall_app. split.
  - destruct (kind_of e.2); constructor; [by apply Hmono | constructor].
  - apply IH; [exact Hmono | lia].
Qed.

Lemma walk_stamps_sorted es : forall n,
  (forall j k, (j <= k)%nat -> time_Now E j <= time_Now E k) ->
  StronglySorted Z.le (walk_stamps E n es).
Proof.
  induction es as [| e es IH]; intros n Hmono; [constructor |].
  cbn [walk_stamps]. destruct (kind_of e.2); cbn [app].
  - constructor; [by apply IH |].
    apply walk_stamps_from; [exact Hmono | lia].
  - by apply IH.
Qed.

End Monotone.

(** X14: when the clock never goes back, the timestamps of the points of a
    batch never go back along the batch, and none is earlier than the reading
    the clock would have given when the emission began. *)
Theorem X14_stamps_follow_the_clock (E : Env) (r : reporter) (w : World) (host : string) :
  (forall j k, (j <= k)%nat -> time_Now E j <= time_Now E k) ->
  (host_prefix E r w).1 = inl host ->
  exists pts,
    emitted E r w = [ {| Points := pts; Database := database r |} ] /\
    StronglySorted Z.le (map Time pts) /\
    Forall (fun p => time_Now E (now_calls w) <= Time p) pts.
Proof.
  intros Hmono Hh. rewrite emitted_eq, Hh. eexists. split; [reflexivity |].
  split.
  - rewrite walk_points_time. by apply walk_stamps_sorted.
  - rewrite <- Forall_map with (f := Time) (P := fun s => time_Now E (now_calls w) <= s).
    rewrite walk_points_time. by apply walk_stamps_from.
Qed.

Lemma X14_stamps_follow_the_clock_witness :
  (forall j k, (j <= k)%nat -> time_Now Scenario.fair j <= time_Now Scenario.fair k) /\
  (host_prefix Scenario.fair (Scenario.reporting Scenario.mixed false) initial_world).1
    = inl "" /\
  exists pts,
    emitted Scenario.fair (Scenario.reporting Scenario.mixed false) initial_world =
      [ {| Points := pts; Database := "metrics" |} ] /\
    StronglySorted Z.le (map Time pts) /\
    Forall (fun p => 1000 <= Time p) pts.
Proof.
  assert (Hmono : forall j k, (j <= k)%nat ->
                    time_Now Scenario.fair j <= time_Now Scenario.fair k)
    by (intros j k Hjk; cbn; lia).
  split; [exact Hmono |]. split; [reflexivity |].
  exact (X14_stamps_follow_the_clock Scenario.fair
           (Scenario.reporting Scenario.mixed false) initial_world "" Hmono eq_refl).
Defined.

Section Names.

Lemma list_ascii_append a b :
  String.list_ascii_of_string (a +:+ b) =
    String.list_ascii_of_string a ++ String.list_ascii_of_string b.
Proof.
  induction a as [| x a IH]; [reflexivity |].
  change (x :: String.list_ascii_of_string (a +:+ b) =
          x :: (String.list_ascii_of_string a ++ String.list_ascii_of_string b)).
  by rewrite IH.
Qed.

Lemma list_ascii_inj a b :
  String.list_ascii_of_string a = String.list_ascii_of_string b -> a = b.
Proof.
  intros H. rewrite <- (String.string_of_list_ascii_of_string a),
                    <- (String.string_of_list_ascii_of_string b).
  by rewrite H.
Qed.

(** A suffix of three characters or more decides the ending. *)
Lemma ending_append a s :
  (3 <= length (String.list_ascii_of_string s))%nat ->
  ending (a +:+ s) = ending s.
Proof.
  intros H. unfold ending. rewrite list_ascii_append, reverse_app.
  apply take_app_le. by rewrite length_reverse.
Qed.

Lemma table_suffix_ending k k' :
  ending (table_suffix k) = ending (table_suffix k') ->
  table_suffix k = table_suffix k'.
Proof. destruct k, k'; intros H; try reflexivity; vm_compute in H; discriminate H. Qed.

(** A measurement name gives back the entry name and the suffix. *)
Lemma measurement_inj host name name' k k' :
  (host +:+ name) +:+ table_suffix k = (host +:+ name') +:+ table_suffix k' ->
  name = name' /\ table_suffix k = table_suffix k'.
Proof.
  intros H.
  assert (Hs : table_suffix k = table_suffix k').
  { apply table_suffix_ending.
    rewrite <- (ending_append (host +:+ name)) by (destruct k; cbn; lia).
    rewrite <- (ending_append (host +:+ name') (table_suffix k')) by (destruct k'; cbn; lia).
    by rewrite H. }
  split; [| exact Hs].
  rewrite Hs in H. apply (f_equal String.list_ascii_of_string) in H.
  rewrite !list_ascii_append in H. apply app_inv_tail in H.
  rewrite <- list_ascii_append in H. rewrite <- (list_ascii_append host name') in H.
  apply list_ascii_inj in H. by apply (inj (String.append host)) in H.
Qed.

Lemma table_measurement_names host es :
  NoDup es.*1 -> NoDup (omap (table_measurement host) es).
Proof.
  induction es as [| [name i] es IH]; intros Hnd; [constructor |].
  cbn [fmap list_fmap fst] in Hnd. apply NoDup_cons in Hnd as [Hnotin Hnd].
  cbn [omap list_omap]. unfold table_measurement at 1. cbn [fst snd].
  destruct (kind_of i) as [k |]; cbn; [| by apply IH].
  apply NoDup_cons. split; [| by apply IH].
  intros Hin. apply list_elem_of_omap in Hin as ([name' i'] & Hin & Heq).
  unfold table_measurement in Heq. cbn [fst snd] in Heq.
  destruct (kind_of i') as [k' |]; [| discriminate Heq].
  cbn in Heq. injection Heq as Heq.
  apply measurement_inj in Heq as [-> _].
  apply Hnotin. apply list_elem_of_fmap. by exists (name, i').
Qed.

End Names.

(** X15: the registry holds each name once, so the measurement names of a
    batch are pairwise distinct: no two points of one batch go to the same
    measurement, although Gauge and GaugeFloat64 share a suffix and a name may
    itself end in a suffix. *)
Theorem X15_measurement_names_distinct (E : Env) (r : reporter) (w : World) (host : string) :
  (host_prefix E r w).1 = inl host ->
  NoDup (entries (reg r) (each_calls w)).*1 ->
  exists pts,
    emitted E r w = [ {| Points := pts; Database := database r |} ] /\
    NoDup (map Measurement pts).
Proof.
  intros Hh Hnd. rewrite emitted_eq, Hh. eexists. split; [reflexivity |].
  rewrite walk_points_measurement. by apply table_measurement_names.
Qed.

Lemma X15_measurement_names_distinct_witness :
  (host_prefix Scenario.fair (Scenario.reporting Scenario.mixed true) initial_world).1
    = inl "box." /\
  NoDup Scenario.mixed.*1 /\
  exists pts,
    emitted Scenario.fair (Scenario.reporting Scenario.mixed true) initial_world =
      [ {| Points := pts; Database := "metrics" |} ] /\
    NoDup (map Measurement pts).
Proof.
  assert (Hnd : NoDup Scenario.mixed.*1) by (cbn; apply NoDup_ListNoDup; repeat constructor; cbn; intuition discriminate).
  split; [reflexivity |]. split; [exact Hnd |].
  exact (X15_measurement_names_distinct Scenario.fair
           (Scenario.reporting Scenario.mixed true) initial_world "box." eq_refl Hnd).
Defined.

(** X16: the conversion of a timer keeps its extremes in order and in range:
    when min <= max in nanoseconds, the field min is at most the field max in
    milliseconds, and both fields lie within 9,223,372,036,854 of zero, so
    the int64 division cannot wrap. *)
Theorem X16_timer_extremes_ordered (E : Env) (host : string) (pts : list Point)
    (name : string) (m : Timer.t) (w : World) :
  in_int64 (Timer.Max m) -> in_int64 (Timer.Min m) ->
  Timer.Min m <= Timer.Max m ->
  exists p qmin qmax,
    (send_callback E host pts name (ITimer m) w).1 = pts ++ [p] /\
    Fields p !! "min" = Some (VInt64 qmin) /\
    Fields p !! "max" = Some (VInt64 qmax) /\
    qmin <= qmax /\
    -9223372036854 <= qmin /\ qmax <= 9223372036854.
Proof.
  intros Hmax Hmin Hle.
  destruct (timer_point E host pts name m w Hmax Hmin)
    as (p & Hp & _ & _ & Hma & Hmi & _).
  exists p, (Timer.Min m ÷ 1000000), (Timer.Max m ÷ 1000000).
  split; [exact Hp |]. split; [exact Hmi |]. split; [exact Hma |].
  split; [apply Z.quot_le_mono; lia |].
  unfold in_int64, min_int64, max_int64 in *.
  split.
  - change (-9223372036854) with ((- 2 ^ 63) ÷ 1000000). apply Z.quot_le_mono; lia.
  - change 9223372036854 with ((2 ^ 63 - 1) ÷ 1000000). apply Z.quot_le_mono; lia.
Qed.

Lemma X16_timer_extremes_ordered_witness :
  in_int64 (Timer.Max Scenario.jittery) /\ in_int64 (Timer.Min Scenario.jittery) /\
  Timer.Min Scenario.jittery <= Timer.Max Scenario.jittery /\
  exists p qmin qmax,
    (send_callback Scenario.fair "" [] "latency" (ITimer Scenario.jittery) initial_world).1 = [p] /\
    Fields p !! "min" = Some (VInt64 qmin) /\
    Fields p !! "max" = Some (VInt64 qmax) /\
    qmin <= qmax /\
    -9223372036854 <= qmin /\ qmax <= 9223372036854.
Proof.
  assert (Hmax : in_int64 (Timer.Max Scenario.jittery)) by (vm_compute; split; discriminate).
  assert (Hmin : in_int64 (Timer.Min Scenario.jittery)) by (vm_compute; split; discriminate).
  assert (Hle : Timer.Min Scenario.jittery <= Timer.Max Scenario.jittery)
    by (vm_compute; discriminate).
  split; [exact Hmax |]. split; [exact Hmin |]. split; [exact Hle |].
  exact (X16_timer_extremes_ordered Scenario.fair "" [] "latency" Scenario.jittery
           initial_world Hmax Hmin Hle).
Defined.

(** X17: a health tick taken with a handle that is not nil does not panic and
    pings exactly once.  When the ping succeeds nothing else happens.  When it
    fails, the failure is logged and [NewClient] is called exactly once, with
    the stored URL, user name and password; the reporter takes the handle
    that call returned, and an error of that call is logged and nothing
    more. *)
Theorem X17_health_tick_on_live_handle (E : Env) (r : reporter) (w : World) (h : Client) :
  client r = Some h ->
  tick_panics E r pingTicker w = false /\
  match client_Ping E (length (ping_calls w)) (Some h) with
  | None => run_case E r pingTicker w = (r, record_ping (Some h) w)
  | Some e =>
      let w2 :=
        record_newclient (stored_config r)
          (record_log
             ("got error while sending a ping to InfluxDB, trying to recreate client. err=" +:+ e)
             (record_ping (Some h) w)) in
      match client_NewClient E (length (newclient_calls w)) (stored_config r) with
      | (c, None) => run_case E r pingTicker w = (set_client r c, w2)
      | (c, Some e') =>
          run_case E r pingTicker w =
            (set_client r c,
             record_log ("unable to make InfluxDB client. err=" +:+ e') w2)
      end
  end.
Proof.
  intros Hc. split; [exact (tick_panics_live E r pingTicker w h Hc) |].
  cbn [run_case]. unfold bind, Ping. rewrite Hc.
  destruct (client_Ping E (length (ping_calls w)) (Some h)) as [e |]; [| reflexivity].
  cbn. unfold makeClient, bind, NewClient. cbn. fold (stored_config r).
  by destruct (client_NewClient E (length (newclient_calls w)) (stored_config r))
    as [c [e' |]].
Qed.

(** The first ping of [Outage.dropped] fails and the client is built anew; the
    second ping, on the new handle, succeeds and changes nothing. *)
Lemma X17_health_tick_on_live_handle_witness :
  let r := Scenario.reporting Scenario.mixed false in
  let w := record_newclient (stored_config r) initial_world in
  let w2 :=
    record_newclient (stored_config r)
      (record_log
         "got error while sending a ping to InfluxDB, trying to recreate client. err=connection refused"
         (record_ping (Some 0%nat) w)) in
  client r = Some 0%nat /\
  run_case Outage.dropped r pingTicker w = (set_client r (Some 1%nat), w2) /\
  run_case Outage.dropped (set_client r (Some 1%nat)) pingTicker w2 =
    (set_client r (Some 1%nat), record_ping (Some 1%nat) w2).
Proof.
  intros r w w2. split; [reflexivity |]. split.
  - exact (proj2 (X17_health_tick_on_live_handle Outage.dropped r w 0%nat eq_refl)).
  - exact (proj2 (X17_health_tick_on_live_handle Outage.dropped
                    (set_client r (Some 1%nat)) w2 1%nat eq_refl)).
Defined.

(** X18: a reporter that starts with a handle, in an environment where every
    construction returns a handle, never panics: after any sequence of ticks
    the loop is alive, in the state that [run] computes, and still holds a
    handle. *)
Theorem X18_no_nil_handle_no_panic (E : Env) (r : reporter) (ticks : list Tick) (w : World) :
  client r <> None ->
  (forall k cfg, (client_NewClient E k cfg).1 <> None) ->
  fate E r ticks w = Alive (run E r ticks w).1 (run E r ticks w).2 /\
  client (run E r ticks w).1 <> None.
Proof. intros Hc Hnew. by apply fate_live. Qed.

Lemma X18_no_nil_handle_no_panic_witness :
  let r := Scenario.reporting Scenario.mixed true in
  client r <> None /\
  (forall k cfg, (client_NewClient Outage.dropped k cfg).1 <> None) /\
  fate Outage.dropped r [pingTicker; intervalTicker; pingTicker] initial_world =
    Alive (run Outage.dropped r [pingTicker; intervalTicker; pingTicker] initial_world).1
      (run Outage.dropped r [pingTicker; intervalTicker; pingTicker] initial_world).2 /\
  client (run Outage.dropped r [pingTicker; intervalTicker; pingTicker] initial_world).1
    = Some 0%nat.
Proof.
  intros r.
  assert (Hc : client r <> None) by discriminate.
  assert (Hnew : forall k cfg, (client_NewClient Outage.dropped k cfg).1 <> None)
    by (intros k cfg; discriminate).
  split; [exact Hc |]. split; [exact Hnew |].
  split; [| reflexivity].
  exact (proj1 (X18_no_nil_handle_no_panic Outage.dropped r
                  [pingTicker; intervalTicker; pingTicker] initial_world Hc Hnew)).
Defined.
